(** * PDF chat: chunker and conversation assembler

    A shallow embedding of [process_pdf] and of the prompt handler of
    [main], as they appear (identically, up to comments) in
    [Claude_citations_v1.py] and [pdf_chat.py], followed by the properties
    of the chunking, request assembly, response normalisation and
    transcript handling. *)

From Stdlib Require Import String Ascii Bool Arith NArith ZArith Lia List.
From Stdlib Require Import DecimalString DecimalNat.
Import ListNotations.

Set Implicit Arguments.

(** ** Python values used by the program *)

Module PyStr.

(** A Python [str] is a sequence of Unicode code points; slicing and
    [len] count code points. *)
Definition codepoint := N.
Definition str := list codepoint.

(** ASCII literals of the source. *)
Definition lit (s : string) : str := map N_of_ascii (list_ascii_of_string s).

(** [str.isspace] on one character: the code points CPython treats as
    whitespace ([_PyUnicode_IsWhitespace]). *)
Definition isspace (c : codepoint) : bool :=
  ((9 <=? c) && (c <=? 13) || (28 <=? c) && (c <=? 32)
   || (c =? 133) || (c =? 160) || (c =? 5760)
   || (8192 <=? c) && (c <=? 8202)
   || (c =? 8232) || (c =? 8233) || (c =? 8239) || (c =? 8287)
   || (c =? 12288))%N.

Fixpoint lstrip (s : str) : str :=
  match s with
  | [] => []
  | c :: r => if isspace c then lstrip r else s
  end.

Definition rstrip (s : str) : str := rev (lstrip (rev s)).

(** [s.strip()] with no argument. *)
Definition strip (s : str) : str := rstrip (lstrip s).

(** Truthiness of a [str]: non-empty. *)
Definition truthy (s : str) : bool :=
  match s with [] => false | _ :: _ => true end.

(** [s[:n]] for [n >= 0]. *)
Definition slice_to (n : nat) (s : str) : str := firstn n s.

(** [str(n)] for an [int]. *)
Definition of_nat (n : nat) : str := lit (NilZero.string_of_uint (Nat.to_uint n)).
Definition of_Z (z : Z) : str := lit (NilZero.string_of_int (Z.to_int z)).

(** [os.path.basename] (POSIX): what follows the last ['/']. *)
Definition basename (p : str) : str :=
  fold_left (fun acc c => if (c =? 47)%N then [] else acc ++ [c]) p [].

Definition blank (s : str) : bool := forallb isspace s.

End PyStr.

Import PyStr.

(** Values an attribute of a response object may hold. *)
Inductive pyval :=
| PyNone
| PyStr (s : str)
| PyInt (z : Z).

(** The exceptions that the modelled code raises or lets through. *)
Inductive exn :=
| OSError                      (* [open] failed *)
| PdfReadError                 (* PyPDF2 could not parse the stream *)
| IndexError
| ValueError (msg : str)
| AttributeError (attr : str)
| TypeError
| APIError (detail : str)      (* any failure of [client.messages.create] *)
| AssertionError               (* a failed [assert] inside a library *)
| LibraryError (name : str).   (* any other exception class of a library *)

(** ** Python's [range] *)

(** [range(start, stop, step)] for [0 < step]: CPython stores the length
    [(stop - start + step - 1) // step] and yields [start + i * step]. *)
Definition py_range (start stop step : nat) : list nat :=
  map (fun i => start + i * step) (seq 0 ((stop - start + step - 1) / step)).

(** ** The chunker: [process_pdf] *)

Record Source := {
  src_type : str;
  media_type : str;
  data : str
}.

Record DocumentUnit := {
  doc_type : str;
  source : Source;
  title : str;
  citations_enabled : bool
}.

(** A binary file object: its bytes and the current position. *)
Record file_obj := {
  contents : list Byte.byte;
  position : nat
}.

(** [file.read()]: everything from the current position to the end. *)
Definition file_read (f : file_obj) : list Byte.byte * file_obj :=
  (skipn (position f) (contents f),
   {| contents := contents f; position := Nat.max (position f) (length (contents f)) |}).

Definition file_seek (f : file_obj) (off : nat) : file_obj :=
  {| contents := contents f; position := off |}.

(** The page windows of the loop [for start in range(0, num_pages, W)]
    with [page_range = range(start, min(start + W, num_pages))]; the source
    fixes [W] to 100. *)
Definition page_windows (W num_pages : nat) : list (nat * nat) :=
  map (fun start => (start, Nat.min (start + W) num_pages)) (py_range 0 num_pages W).

Definition max_pages : nat := 100.

Module Chunker.
Section WithLibraries.

(** PyPDF2 page objects. *)
Variable page : Type.

(** [open(file_path, "rb")]: [None] when the file cannot be opened. *)
Variable open_rb : str -> option (list Byte.byte).

(** [PdfReader(file)] followed by [len(pdf_reader.pages)], on a stream
    holding the given bytes: the parser seeks and reads in the stream it
    is given, so besides the pages it yields the position at which it
    leaves the file object; [None] when parsing raises. *)
Variable PdfReader : list Byte.byte -> option (list page * nat).

(** [pdf_writer.add_page(pdf_reader.pages[i])] for a page the reader
    holds: the exception reading or adding that page raises ([None]: the
    page is put after the pages the writer holds). *)
Variable add_page : page -> option exn.

(** [PdfWriter.write] into a [BytesIO], [getvalue], then
    [base64.b64encode(...).decode('utf-8')], for the pages the writer
    holds: the text, or the exception one of these raises. *)
Variable write_b64 : list page -> exn + str.

(** [hashlib.md5(...).hexdigest()]. *)
Variable md5_hexdigest : list Byte.byte -> str.

(** [for page in page_range: pdf_writer.add_page(pdf_reader.pages[page])],
    from the pages [pdf_writer] holds so far. *)
Fixpoint add_pages (pages : list page) (page_range : list nat)
         (pdf_writer : list page) : exn + list page :=
  match page_range with
  | [] => inr pdf_writer
  | i :: r =>
      match nth_error pages i with
      | None => inl IndexError
      | Some p =>
          match add_page p with
          | Some e => inl e
          | None => add_pages pages r (pdf_writer ++ [p])
          end
      end
  end.

Definition chunk_title (file_path : str) (start stop : nat) : str :=
  basename file_path ++ lit " (pages " ++ of_nat (start + 1) ++ lit "-"
    ++ of_nat stop ++ lit ")".

Definition make_unit (file_path : str) (start stop : nat) (base64_pdf : str)
  : DocumentUnit :=
  {| doc_type := lit "document";
     source := {| src_type := lit "base64";
                  media_type := lit "application/pdf";
                  data := base64_pdf |};
     title := chunk_title file_path start stop;
     citations_enabled := true |}.

(** The body of the [for start in range(0, num_pages, 100)] loop over the
    remaining windows, appending to [documents]. *)
Fixpoint chunk_loop (file_path : str) (pages : list page)
         (windows : list (nat * nat)) (documents : list DocumentUnit)
  : exn + list DocumentUnit :=
  match windows with
  | [] => inr documents
  | (start, stop) :: rest =>
      match add_pages pages (py_range start stop 1) [] with
      | inl e => inl e
      | inr pdf_writer =>
          match write_b64 pdf_writer with
          | inl e => inl e
          | inr base64_pdf =>
              chunk_loop file_path pages rest
                         (documents ++ [make_unit file_path start stop base64_pdf])
          end
      end
  end.

(** What [hashlib.md5] is applied to: [file.read()] issued after
    [PdfReader(file)] and [len(pdf_reader.pages)], before [file.seek(0)]. *)
Definition hashed_bytes (f_after_reader : file_obj) : list Byte.byte :=
  fst (file_read f_after_reader).

(** [process_pdf]: the result, or the exception that the [except] clause
    reports and raises again. *)
Definition process_pdf (file_path : str) : exn + (list DocumentUnit * str) :=
  match open_rb file_path with
  | None => inl OSError
  | Some bytes =>
      let file := {| contents := bytes; position := 0 |} in
      match PdfReader (contents file) with
      | None => inl PdfReadError
      | Some (pages, pos) =>
          let file := file_seek file pos in
          let num_pages := length pages in
          let content_hash := md5_hexdigest (hashed_bytes file) in
          let file := file_seek (snd (file_read file)) 0 in
          match chunk_loop file_path pages (page_windows max_pages num_pages) [] with
          | inl e => inl e
          | inr documents => inr (documents, content_hash)
          end
      end
  end.

End WithLibraries.
End Chunker.

(** ** The conversation: transcript, request and response objects *)

Inductive role := user | assistant.

(** A citation record as stored in the transcript (the dict built in the
    extraction loop). *)
Record Citation := {
  document : pyval;
  start_page : pyval;
  end_page : pyval;
  text : str
}.

(** An entry of [st.session_state.messages]. *)
Record Turn := {
  turn_role : role;
  content : str;
  citations : list Citation
}.

(** Content blocks of an outbound message. *)
Inductive block :=
| DocBlock (d : DocumentUnit)
| TextBlock (t : str).

Record Message := {
  msg_role : role;
  msg_content : list block
}.

(** A citation annotation of the reply; [None] is an absent attribute. *)
Record annotation := {
  document_title : option pyval;
  start_page_number : option pyval;
  end_page_number : option pyval;
  cited_text : option pyval
}.

(** A content block of the reply.  [block_citations] is [None] when the
    attribute is absent or holds [None]. *)
Record content_block := {
  block_type : option str;
  block_text : option pyval;
  block_citations : option (list annotation)
}.

(** What [client.messages.create] returns: a falsy value, or an object
    whose [content] attribute may be absent. *)
Inductive response :=
| NoResponse
| ResponseObj (resp_content : option (list content_block)).

(** [getattr(obj, name, default)]. *)
Definition getattr {A} (attr : option A) (default : A) : A :=
  match attr with
  | Some v => v
  | None => default
  end.

Definition str_eqb (a b : str) : bool :=
  if list_eq_dec N.eq_dec a b then true else false.

(** [str(v)] and the truth value of [v]. *)
Definition pyval_str (v : pyval) : str :=
  match v with
  | PyNone => lit "None"
  | PyStr s => s
  | PyInt z => of_Z z
  end.

Definition pyval_truthy (v : pyval) : bool :=
  match v with
  | PyNone => false
  | PyStr s => truthy s
  | PyInt z => negb (z =? 0)%Z
  end.

Definition empty_response_msg : str := lit "Empty API response - no data received".
Definition malformed_response_msg : str :=
  lit "Malformed API response - missing content field".

(** *** Request assembly *)

(** The [messages] list built at the head of the [try] block:
    the documents and the prompt first, then the non-blank history. *)
Definition history_message (msg : Turn) : Message :=
  {| msg_role := turn_role msg; msg_content := [TextBlock (content msg)] |}.

Fixpoint append_history (messages : list Message) (history : list Turn)
  : list Message :=
  match history with
  | [] => messages
  | msg :: rest =>
      if truthy (strip (content msg))
      then append_history (messages ++ [history_message msg]) rest
      else append_history messages rest
  end.

Definition buildRequest (documents : list DocumentUnit) (prompt : str)
           (history : list Turn) : list Message :=
  let messages :=
    [{| msg_role := user;
        msg_content := map DocBlock documents ++ [TextBlock prompt] |}] in
  match history with
  | [] => messages
  | _ :: _ => append_history messages history
  end.

(** *** Response validation *)

Definition validate (r : response) : exn + list content_block :=
  match r with
  | NoResponse => inl (ValueError empty_response_msg)
  | ResponseObj None => inl (ValueError malformed_response_msg)
  | ResponseObj (Some blocks) => inr blocks
  end.

(** *** Normalisation *)

(** The dict appended for one [cite]. *)
Definition make_citation (cite : annotation) : exn + Citation :=
  match getattr (cited_text cite) (PyStr []) with
  | PyStr s =>
      inr {| document := getattr (document_title cite) (PyStr (lit "Unknown Document"));
             start_page := getattr (start_page_number cite) (PyInt 0);
             end_page := getattr (end_page_number cite) (PyInt 0);
             text := slice_to 150 s ++ lit "..." |}
  | _ => inl TypeError
  end.

Fixpoint extend_citations (citations : list Citation) (cites : list annotation)
  : exn + list Citation :=
  match cites with
  | [] => inr citations
  | cite :: rest =>
      match make_citation cite with
      | inl e => inl e
      | inr c => extend_citations (citations ++ [c]) rest
      end
  end.

(** The loop over [response.content], started from the given
    [citations] and [full_response]. *)
Fixpoint normalize_loop (blocks : list content_block)
         (citations : list Citation) (full_response : str)
  : exn + (str * list Citation) :=
  match blocks with
  | [] => inr (full_response, citations)
  | content_block :: rest =>
      match block_type content_block with
      | None => inl (AttributeError (lit "type"))
      | Some ty =>
          if str_eqb ty (lit "text") then
            match block_text content_block with
            | None => inl (AttributeError (lit "text"))
            | Some (PyStr t) =>
                let full_response := full_response ++ t in
                match block_citations content_block with
                | Some (c :: cs) =>
                    match extend_citations citations (c :: cs) with
                    | inl e => inl e
                    | inr citations => normalize_loop rest citations full_response
                    end
                | _ => normalize_loop rest citations full_response
                end
            | Some _ => inl TypeError
            end
          else normalize_loop rest citations full_response
      end
  end.

Definition normalize (blocks : list content_block) : exn + (str * list Citation) :=
  normalize_loop blocks [] [].

(** The line shown for the [idx]-th reference. *)
Definition reference_line (idx : nat) (cite : Citation) : str :=
  let source :=
    if pyval_truthy (document cite)
    then lit "`" ++ pyval_str (document cite) ++ lit "`"
    else lit "the document" in
  of_nat idx ++ lit ". From " ++ source ++ lit " (page "
    ++ pyval_str (start_page cite) ++ lit "):  " ++ [10%N] ++ lit "`"
    ++ text cite ++ lit "`".

(** ** The session: transcript and page output, threaded through the handler *)

Inductive ui_event :=
| UiChatMessage (r : role)
| UiSpinner (label : str)
| UiMarkdown (s : str)
| UiSubheader (s : str)
| UiJsonRequest (messages : list Message)
| UiJsonResponse (r : response)
| UiError (e : exn)          (* [st.error] with the message built from [e] *)
| UiCode (e : exn).          (* [st.code(traceback.format_exc())] *)

Record session := {
  messages : list Turn;      (* [st.session_state.messages] *)
  ui : list ui_event         (* what has been written to the page, oldest first *)
}.

Module SessionMonad.

(** A computation reads and updates the session and either returns or
    raises; what it did to the session before raising stays done. *)
Definition M (A : Type) : Type := session -> (exn + A) * session.

Definition ret {A} (a : A) : M A := fun s => (inr a, s).

Definition bind {A B} (c : M A) (k : A -> M B) : M B :=
  fun s =>
    match c s with
    | (inl e, s') => (inl e, s')
    | (inr a, s') => k a s'
    end.

Definition raise {A} (e : exn) : M A := fun s => (inl e, s).

Definition lift {A} (r : exn + A) : M A :=
  match r with
  | inl e => raise e
  | inr a => ret a
  end.

(** [try: c  except Exception as e: h e]. *)
Definition try_except {A} (c : M A) (h : exn -> M A) : M A :=
  fun s =>
    match c s with
    | (inl e, s') => h e s'
    | (inr a, s') => (inr a, s')
    end.

Definition get_messages : M (list Turn) := fun s => (inr (messages s), s).

Definition append_message (t : Turn) : M unit :=
  fun s => (inr tt, {| messages := messages s ++ [t]; ui := ui s |}).

(** [list.pop()] with the popped value dropped. *)
Definition pop_message : M unit :=
  fun s =>
    match messages s with
    | [] => (inl IndexError, s)
    | _ :: _ => (inr tt, {| messages := removelast (messages s); ui := ui s |})
    end.

Definition emit (e : ui_event) : M unit :=
  fun s => (inr tt, {| messages := messages s; ui := ui s ++ [e] |}).

Definition when (b : bool) (c : M unit) : M unit :=
  if b then c else ret tt.

Fixpoint for_each {A} (l : list A) (body : A -> M unit) : M unit :=
  match l with
  | [] => ret tt
  | a :: r => bind (body a) (fun _ => for_each r body)
  end.

Declare Scope session_scope.
Delimit Scope session_scope with session.
Notation "x <- c ;; k" := (bind c (fun x => k))
  (at level 61, c at next level, right associativity) : session_scope.
Notation "c ;; k" := (bind c (fun _ => k))
  (at level 61, right associativity) : session_scope.

End SessionMonad.

Import SessionMonad.

Module Chat.
Section WithClient.

(** The sidebar checkbox. *)
Variable debug_mode : bool.

(** [client.messages.create(model=..., max_tokens=4000, messages=...,
    temperature=0.3)]: it raises or returns a response. *)
Variable create : list Message -> exn + response.

(** The result of [process_pdf], computed before the handler runs. *)
Variable documents : list DocumentUnit.

Open Scope session_scope.

(** From the head of the [try] block to the debug dump of the request. *)
Definition assemble (prompt : str) : M (list Message) :=
  emit (UiChatMessage assistant) ;;
  emit (UiSpinner (lit "Analyzing document...")) ;;
  all <- get_messages ;;
  let history := removelast all in
  let messages := buildRequest documents prompt history in
  when debug_mode
    (emit (UiSubheader (lit "Debug Information")) ;;
     emit (UiJsonRequest messages)) ;;
  ret messages.

(** The API call and the two checks on what it returned. *)
Definition dispatch (messages : list Message) : M (response * list content_block) :=
  response <- lift (create messages) ;;
  blocks <- lift (validate response) ;;
  ret (response, blocks).

(** The references shown under the reply. *)
Definition show_references (citations : list Citation) : M unit :=
  match citations with
  | [] => ret tt
  | _ :: _ =>
      emit (UiMarkdown (lit "---")) ;;
      emit (UiMarkdown (lit "**References:**")) ;;
      for_each (combine (seq 1 (length citations)) citations)
               (fun '(idx, cite) => emit (UiMarkdown (reference_line idx cite)))
  end.

(** From the debug dump of the reply to the end of the [try] block. *)
Definition render (response : response) (blocks : list content_block) : M unit :=
  when debug_mode (emit (UiJsonResponse response)) ;;
  r <- lift (normalize blocks) ;;
  let '(full_response, citations) := r in
  emit (UiMarkdown full_response) ;;
  show_references citations ;;
  append_message {| turn_role := assistant;
                    content := full_response;
                    citations := citations |}.

Definition try_body (prompt : str) : M unit :=
  messages <- assemble prompt ;;
  r <- dispatch messages ;;
  render (fst r) (snd r).

Definition except_handler (e : exn) : M unit :=
  emit (UiError e) ;;
  when debug_mode (emit (UiCode e)) ;;
  pop_message.

(** The body of [if prompt := st.chat_input(...)].  Building the client
    object, between showing the prompt and the [try] block, does not touch
    the session and is left out. *)
Definition handle_prompt (prompt : str) : M unit :=
  append_message {| turn_role := user; content := prompt; citations := [] |} ;;
  emit (UiChatMessage user) ;;
  emit (UiMarkdown prompt) ;;
  try_except (try_body prompt) except_handler.

(** The session as it stands when the [try] block is entered. *)
Definition before_try (prompt : str) (s : session) : session :=
  snd ((append_message {| turn_role := user; content := prompt; citations := [] |} ;;
        emit (UiChatMessage user) ;;
        emit (UiMarkdown prompt)) s).

End WithClient.
End Chat.

(** ** The script: what one run of [main] does *)

(** What a run writes outside the chat area, and the chat area itself. *)
Inductive page_event :=
| SetPageConfig (page_title page_icon : str)
| Title (s : str)
| SidebarCheckbox (label : str)
| SidebarTitle (s : str)
| SidebarTextInput (label : str)
| SidebarMarkdown (s : str)
| ErrorMessage (msg : str)      (* [st.error] with a text of the script's own *)
| PdfProcessingError (e : exn)  (* [st.error(f"PDF Processing Error: {str(e)}")] *)
| PdfTraceback (e : exn)        (* [st.code(traceback.format_exc())] in [process_pdf] *)
| Body (e : ui_event).

(** What a run reads from its environment and from the widgets. *)
Record inputs := {
  env_api_key : option str;     (* [os.getenv("ANTHROPIC_API_KEY")] *)
  debug_checkbox : bool;        (* [st.sidebar.checkbox("Enable Debug Mode")] *)
  key_input : str;              (* [st.text_input(...)], read when no key is set *)
  path_exists : str -> bool;    (* [os.path.exists] *)
  chat_input : option str       (* [st.chat_input(...)]: [None] or the text sent *)
}.

(** [not api_key] for what [os.getenv] returned. *)
Definition key_missing (k : option str) : bool :=
  match k with
  | None => true
  | Some s => negb (truthy s)
  end.

(** [api_key] once the sidebar has been drawn. *)
Definition api_key_of (i : inputs) : str :=
  if key_missing (env_api_key i) then key_input i else getattr (env_api_key i) [].

Definition how_to_use : str :=
  [128214%N] ++ lit " **How to use**" ++ [10%N]
    ++ lit "1. Upload PDFs to 'documents' folder" ++ [10%N]
    ++ lit "2. Ask questions about the content" ++ [10%N]
    ++ lit "3. View citations in responses".

(** From [st.set_page_config] to the end of the sidebar block. *)
Definition page_header (i : inputs) : list page_event :=
  [SetPageConfig (lit "PDF Chat with Claude") [128218%N];
   Title ([128218%N] ++ lit " PDF Chat with Claude");
   SidebarCheckbox (lit "Enable Debug Mode");
   SidebarTitle ([9881%N; 65039%N] ++ lit " Settings")]
    ++ (if key_missing (env_api_key i)
        then [SidebarTextInput (lit "Enter Anthropic API Key")]
        else [])
    ++ [SidebarMarkdown (lit "---"); SidebarMarkdown how_to_use].

Definition key_error : str :=
  [128273%N] ++ lit " Please enter your Anthropic API key in the sidebar".

Definition not_found_error (pdf_path : str) : str :=
  [128196%N] ++ lit " PDF file not found at " ++ pdf_path.

(** The turn the transcript is created with. *)
Definition greeting : Turn :=
  {| turn_role := assistant;
     content := lit "Ask me anything about the document!";
     citations := [] |}.

Module Page.
Section WithLibraries.

Variable page : Type.
Variable open_rb : str -> option (list Byte.byte).
Variable PdfReader : list Byte.byte -> option (list page * nat).
Variable add_page : page -> option exn.
Variable write_b64 : list page -> exn + str.
Variable md5_hexdigest : list Byte.byte -> str.

(** [anthropic.Anthropic(api_key=...)]: building the client raises, or
    gives the client whose [messages.create] is then called. *)
Variable Anthropic : str -> exn + (list Message -> exn + response).

Open Scope session_scope.

(** One iteration of the loop that replays the transcript. *)
Definition display_message (message : Turn) : M unit :=
  emit (UiChatMessage (turn_role message)) ;;
  emit (UiMarkdown (content message)) ;;
  Chat.show_references (citations message).

Definition display_history : M unit :=
  all <- get_messages ;;
  for_each all display_message.

(** The body of [if prompt := st.chat_input(...)] with the client built
    where the script builds it: after the prompt is stored and shown, and
    before the [try] block. *)
Definition prompt_handler (debug_mode : bool) (documents : list DocumentUnit)
           (api_key prompt : str) : M unit :=
  append_message {| turn_role := user; content := prompt; citations := [] |} ;;
  emit (UiChatMessage user) ;;
  emit (UiMarkdown prompt) ;;
  create <- lift (Anthropic api_key) ;;
  try_except (Chat.try_body debug_mode create documents prompt)
             (Chat.except_handler debug_mode).

(** From [if "messages" not in st.session_state] to the end of [main],
    once [process_pdf] has returned [documents]. *)
Definition chat_area (i : inputs) (documents : list DocumentUnit)
           (state : option (list Turn))
  : option exn * option (list Turn) * list page_event :=
  let messages0 :=
    match state with
    | None => [greeting]
    | Some ms => ms
    end in
  let s0 := {| messages := messages0; ui := [] |} in
  match display_history s0 with
  | (inl e, s1) => (Some e, Some (messages s1), map Body (ui s1))
  | (inr _, s1) =>
      match chat_input i with
      | Some (c :: prompt) =>
          match prompt_handler (debug_checkbox i) documents (api_key_of i)
                               (c :: prompt) s1 with
          | (inl e, s2) => (Some e, Some (messages s2), map Body (ui s2))
          | (inr _, s2) => (None, Some (messages s2), map Body (ui s2))
          end
      | _ => (None, Some (messages s1), map Body (ui s1))
      end
  end.

(** One run of [main].  [require_key] is [true] for [pdf_chat.py], which
    stops when no key was given, and [false] for [Claude_citations_v1.py],
    which has no such test; [pdf_path] is the path each file fixes.  The
    result is the exception that ended the run, if any, the transcript kept
    in [st.session_state] ([None]: never created) and what the run wrote.
    [process_pdf] is memoised per path by the framework; the file system
    being a function here, the memoised value is the one computed. *)
Definition run_main (require_key : bool) (pdf_path : str) (i : inputs)
           (state : option (list Turn))
  : option exn * option (list Turn) * list page_event :=
  let header := page_header i in
  if require_key && negb (truthy (api_key_of i))
  then (None, state, header ++ [ErrorMessage key_error])
  else if negb (path_exists i pdf_path)
  then (None, state, header ++ [ErrorMessage (not_found_error pdf_path)])
  else
    match Chunker.process_pdf open_rb PdfReader add_page write_b64 md5_hexdigest pdf_path with
    | inl e =>
        (None, state,
         header ++ [PdfProcessingError e]
                ++ (if debug_checkbox i then [PdfTraceback e] else []))
    | inr (documents, content_hash) =>
        let '(raised, state', body) := chat_area i documents state in
        (raised, state', header ++ body)
    end.

Definition main_pdf_chat : inputs -> option (list Turn)
                           -> option exn * option (list Turn) * list page_event :=
  run_main true (lit "documents/Hrd. 2003_4119 nr. 425_2003.pdf").

Definition main_Claude_citations_v1 : inputs -> option (list Turn)
                                      -> option exn * option (list Turn) * list page_event :=
  run_main false (lit "documents/Dario_Amodai Machines of loving grace.pdf").

(** The transcript after a series of runs, each with its own inputs. *)
Fixpoint run_session (require_key : bool) (pdf_path : str) (runs : list inputs)
         (state : option (list Turn)) : option (list Turn) :=
  match runs with
  | [] => state
  | i :: rest =>
      run_session require_key pdf_path rest
                  (snd (fst (run_main require_key pdf_path i state)))
  end.

End WithLibraries.
End Page.

(** ** Vocabulary of the properties *)

(** [pages[a:b]] for a window [(a, b)]. *)
Definition slice {A} (pages : list A) (w : nat * nat) : list A :=
  firstn (snd w - fst w) (skipn (fst w) pages).

Definition width (w : nat * nat) : nat := snd w - fst w.

(** [tiles W lo ws hi]: the windows [ws], in order, are non-empty
    half-open ranges of at most [W] indices, the first starting at [lo],
    each starting where the previous one stops, the last stopping at [hi]. *)
Fixpoint tiles (W lo : nat) (ws : list (nat * nat)) (hi : nat) : Prop :=
  match ws with
  | [] => lo = hi
  | (a, b) :: rest => a = lo /\ a < b /\ b - a <= W /\ tiles W b rest hi
  end.

(** The title of the unit of a window: the base name of the file, then the
    window as a 1-based inclusive page range in decimal. *)
Definition page_range_title (file_path : str) (w : nat * nat) : str :=
  basename file_path ++ lit " (pages " ++ of_nat (fst w + 1) ++ lit "-"
    ++ of_nat (snd w) ++ lit ")".

(** [holds_window add_page write_b64 file_path pages w d]: the unit [d] is
    the one of the window [w]: every page of the window was accepted, the
    unit's data is what the writer gave for exactly the pages of the
    window, its title names the window, and it is a base64 PDF document
    with citations enabled. *)
Definition holds_window {page} (add_page : page -> option exn)
           (write_b64 : list page -> exn + str) (file_path : str)
           (pages : list page) (w : nat * nat) (d : DocumentUnit) : Prop :=
  Forall (fun p => add_page p = None) (slice pages w)
  /\ write_b64 (slice pages w) = inr (data (source d))
  /\ title d = page_range_title file_path w
  /\ doc_type d = lit "document"
  /\ src_type (source d) = lit "base64"
  /\ media_type (source d) = lit "application/pdf"
  /\ citations_enabled d = true.

(** The first exception [add_page] raises on a run of pages, if any. *)
Fixpoint first_refusal {page} (add_page : page -> option exn) (ps : list page)
  : option exn :=
  match ps with
  | [] => None
  | p :: r =>
      match add_page p with
      | Some e => Some e
      | None => first_refusal add_page r
      end
  end.

Definition returns {E A} (r : E + A) : bool :=
  match r with inl _ => false | inr _ => true end.

(** The document blocks of a request. *)
Definition is_doc (b : block) : bool :=
  match b with DocBlock _ => true | TextBlock _ => false end.

Definition doc_blocks (ms : list Message) : list block :=
  filter is_doc (flat_map msg_content ms).

Definition first_message (documents : list DocumentUnit) (prompt : str) : Message :=
  {| msg_role := user;
     msg_content := map DocBlock documents ++ [TextBlock prompt] |}.

Definition nonblank (t : Turn) : bool := negb (blank (content t)).

Definition user_turn (prompt : str) : Turn :=
  {| turn_role := user; content := prompt; citations := [] |}.

Definition assistant_turn (full_response : str) (cites : list Citation) : Turn :=
  {| turn_role := assistant; content := full_response; citations := cites |}.

(** What the reference list adds to the page. *)
Definition references_ui (cites : list Citation) : list ui_event :=
  match cites with
  | [] => []
  | _ :: _ =>
      [UiMarkdown (lit "---"); UiMarkdown (lit "**References:**")]
        ++ map (fun '(idx, cite) => UiMarkdown (reference_line idx cite))
               (combine (seq 1 (length cites)) cites)
  end.

(** What the head of the [try] block adds to the page before the call. *)
Definition assemble_ui (debug_mode : bool) (request : list Message) : list ui_event :=
  [UiChatMessage assistant; UiSpinner (lit "Analyzing document...")]
    ++ (if debug_mode
        then [UiSubheader (lit "Debug Information"); UiJsonRequest request]
        else []).

(** What a reply that passed the checks adds to the page. *)
Definition render_ui (debug_mode : bool) (r : response) (full_response : str)
           (cites : list Citation) : list ui_event :=
  (if debug_mode then [UiJsonResponse r] else [])
    ++ [UiMarkdown full_response] ++ references_ui cites.

(** A field of an annotation read as missing: the attribute is absent, or
    it is there and holds [None] (as in the objects the client library
    builds, whose optional fields default to [None]). *)
Definition field_missing (attr : option pyval) : bool :=
  match attr with
  | None | Some PyNone => true
  | Some _ => false
  end.

(** The citation annotations the extraction loop visits: those of the
    text blocks, in order. *)
Definition annotations_of (blocks : list content_block) : list annotation :=
  flat_map (fun b =>
              match block_type b with
              | Some ty =>
                  if str_eqb ty (lit "text")
                  then getattr (block_citations b) []
                  else []
              | None => []
              end) blocks.

(** The API call, the two checks and the normalisation, as one outcome. *)
Definition exchange_outcome (create : list Message -> exn + response)
           (request : list Message) : exn + (response * (str * list Citation)) :=
  match create request with
  | inl e => inl e
  | inr r =>
      match validate r with
      | inl e => inl e
      | inr blocks =>
          match normalize blocks with
          | inl e => inl e
          | inr fc => inr (r, fc)
          end
      end
  end.

(** ** Concrete stand-ins, to run the model on inputs *)

Module Demo.

(** A file of nine bytes starting with the PDF header, stored under two
    paths; a reader that
    finds 250 pages (numbered from 1) and leaves the stream after the
    five-byte header; a writer that accepts every page and lists the page
    numbers; a digest that spells out the bytes it is given. *)
Definition path : str := lit "documents/thesis.pdf".
Definition pdf_bytes : list Byte.byte :=
  [Byte.x25; Byte.x50; Byte.x44; Byte.x46; Byte.x2d;
   Byte.x31; Byte.x2e; Byte.x34; Byte.x0a].
Definition pages : list nat := seq 1 250.
Definition copy : str := lit "backup/thesis.pdf".
Definition open_rb (p : str) : option (list Byte.byte) :=
  if str_eqb (basename p) (lit "thesis.pdf") then Some pdf_bytes else None.
Definition PdfReader (bytes : list Byte.byte) : option (list nat * nat) :=
  Some (pages, 5).
Definition add_page (p : nat) : option exn := None.
Definition write_b64 (ps : list nat) : exn + str := inr (map N.of_nat ps).
Definition digest (bytes : list Byte.byte) : str := map Byte.to_N bytes.
Definition process_pdf : str -> exn + (list DocumentUnit * str) :=
  Chunker.process_pdf open_rb PdfReader add_page write_b64 digest.
Definition units : list DocumentUnit :=
  match process_pdf path with
  | inr (documents, _) => documents
  | inl _ => []
  end.
Definition fingerprint : str := digest (skipn 5 pdf_bytes).

(** The transcript a session starts with. *)
Definition greeting : Turn :=
  {| turn_role := assistant;
     content := lit "Ask me anything about the document!";
     citations := [] |}.
Definition fresh : session := {| messages := [greeting]; ui := [] |}.

Definition question : str := lit "What is the thesis?".

(** An annotation with a three-character excerpt and no title or end page. *)
Definition short_cite : annotation :=
  {| document_title := None;
     start_page_number := Some (PyInt 3);
     end_page_number := None;
     cited_text := Some (PyStr (lit "abc")) |}.
Definition reply_blocks : list content_block :=
  [{| block_type := Some (lit "text");
      block_text := Some (PyStr (lit "It is on page 3."));
      block_citations := Some [short_cite] |}].

(** Three clients: one that fails, one that returns nothing, one that
    answers with [reply_blocks]. *)
Definition failing (_ : list Message) : exn + response :=
  inl (APIError (lit "overloaded")).
Definition silent (_ : list Message) : exn + response := inr NoResponse.
Definition answering (_ : list Message) : exn + response :=
  inr (ResponseObj (Some reply_blocks)).

End Demo.

(** ** Facts about the Python primitives *)

Lemma lstrip_nil_iff (s : str) : lstrip s = [] <-> blank s = true.
Proof.
  unfold blank. induction s as [|c r IH]; simpl.
  - tauto.
  - destruct (isspace c); simpl.
    + exact IH.
    + split; discriminate.
Qed.

Lemma lstrip_head (s : str) (c : codepoint) (r : str) :
  lstrip s = c :: r -> isspace c = false.
Proof.
  induction s as [|x s IH]; simpl; [discriminate|].
  destruct (isspace x) eqn:Hx; [exact IH|].
  intros E; inversion E; subst; exact Hx.
Qed.

(** [s.strip()] is empty exactly when [s] holds nothing but whitespace. *)
Lemma strip_nil_iff (s : str) : strip s = [] <-> blank s = true.
Proof.
  unfold strip, rstrip. split.
  - intros H. apply lstrip_nil_iff.
    destruct (lstrip s) as [|c r] eqn:E; [reflexivity|exfalso].
    apply (f_equal (@rev _)) in H. rewrite rev_involutive in H. simpl in H.
    apply lstrip_nil_iff in H. unfold blank in H.
    rewrite forallb_app in H. simpl in H.
    rewrite (lstrip_head _ E) in H. simpl in H.
    rewrite andb_false_r in H. discriminate.
  - intros H. apply lstrip_nil_iff in H. rewrite H. reflexivity.
Qed.

Lemma truthy_strip (s : str) : truthy (strip s) = negb (blank s).
Proof.
  destruct (blank s) eqn:B; simpl.
  - apply strip_nil_iff in B. now rewrite B.
  - destruct (strip s) eqn:E; [|reflexivity].
    apply strip_nil_iff in E. congruence.
Qed.

Lemma map_seq_affine (a n s : nat) :
  map (fun i => a + i * 1) (seq s n) = seq (a + s) n.
Proof.
  revert s; induction n as [|n IH]; intros s; simpl; [reflexivity|].
  rewrite IH. f_equal; [lia|]. f_equal. lia.
Qed.

Lemma py_range_unit_step (a b : nat) : py_range a b 1 = seq a (b - a).
Proof.
  unfold py_range. replace (b - a + 1 - 1) with (b - a) by lia.
  rewrite Nat.div_1_r, map_seq_affine. f_equal. lia.
Qed.

Lemma ceil_div_bounds (W N : nat) :
  0 < W ->
  N <= (N + W - 1) / W * W /\ (0 < (N + W - 1) / W -> ((N + W - 1) / W - 1) * W < N).
Proof.
  intros HW.
  pose proof (Nat.div_mod_eq (N + W - 1) W) as E.
  pose proof (Nat.mod_upper_bound (N + W - 1) W ltac:(lia)) as R.
  set (k := (N + W - 1) / W) in *. set (r := (N + W - 1) mod W) in *.
  split; [nia|]. intros Hk. destruct k as [|k]; [lia|]. simpl. nia.
Qed.

Lemma skipn_cons_nth {A} (l : list A) (a : nat) (p : A) :
  nth_error l a = Some p -> skipn a l = p :: skipn (S a) l.
Proof.
  revert a; induction l as [|x l IH]; intros [|a] H; simpl in *; try discriminate.
  - now inversion H.
  - now apply IH.
Qed.

Lemma firstn_then_next {A} (l : list A) (n m : nat) :
  firstn n l ++ firstn m (skipn n l) = firstn (n + m) l.
Proof.
  revert l; induction n as [|n IH]; intros l; simpl; [reflexivity|].
  destruct l as [|x l]; simpl.
  - now rewrite firstn_nil.
  - now rewrite IH.
Qed.

(** ** Facts about the windows *)

Lemma tiles_le (W : nat) (ws : list (nat * nat)) :
  forall lo hi, tiles W lo ws hi -> lo <= hi.
Proof.
  induction ws as [|[a b] rest IH]; simpl; intros lo hi H.
  - lia.
  - destruct H as (-> & Hab & _ & Hrest). apply IH in Hrest. lia.
Qed.

Lemma tiles_width_sum (W : nat) (ws : list (nat * nat)) :
  forall lo hi, tiles W lo ws hi -> list_sum (map width ws) = hi - lo.
Proof.
  induction ws as [|[a b] rest IH]; simpl; intros lo hi H.
  - lia.
  - destruct H as (-> & Hab & _ & Hrest).
    pose proof (tiles_le _ _ _ _ Hrest). rewrite (IH _ _ Hrest).
    unfold width; simpl. lia.
Qed.

Lemma tiles_concat_slices {A} (pages : list A) (W : nat) (ws : list (nat * nat)) :
  forall lo hi, tiles W lo ws hi ->
    concat (map (slice pages) ws) = firstn (hi - lo) (skipn lo pages).
Proof.
  induction ws as [|[a b] rest IH]; simpl; intros lo hi H.
  - subst. now rewrite Nat.sub_diag.
  - destruct H as (<- & Hab & _ & Hrest).
    pose proof (tiles_le _ _ _ _ Hrest) as Hle.
    rewrite (IH _ _ Hrest). unfold slice; simpl.
    replace (skipn b pages) with (skipn (b - a) (skipn a pages))
      by (rewrite skipn_skipn; f_equal; lia).
    rewrite firstn_then_next. f_equal. lia.
Qed.

Lemma windows_from (W N : nat) :
  0 < W ->
  forall k j lo,
    lo = Nat.min (j * W) N ->
    N <= (j + k) * W ->
    (0 < k -> (j + k - 1) * W < N) ->
    tiles W lo
          (map (fun start => (start, Nat.min (start + W) N))
               (map (fun i => 0 + i * W) (seq j k))) N.
Proof.
  intros HW. induction k as [|k IH]; intros j lo Hlo Hup Hlow; simpl.
  - subst lo. apply Nat.min_r. lia.
  - specialize (Hlow ltac:(lia)).
    assert (Hj : j * W < N) by nia.
    repeat split.
    + subst lo. lia.
    + lia.
    + lia.
    + apply IH.
      * simpl. lia.
      * nia.
      * intros Hk. replace (S j + k - 1) with (j + S k - 1) by lia. exact Hlow.
Qed.

Lemma page_windows_tiles (W N : nat) : 0 < W -> tiles W 0 (page_windows W N) N.
Proof.
  intros HW. unfold page_windows, py_range.
  destruct (ceil_div_bounds N HW) as [Hup Hlow].
  replace (N - 0 + W - 1) with (N + W - 1) by lia.
  apply windows_from; simpl; lia.
Qed.

Lemma page_windows_length (W N : nat) :
  length (page_windows W N) = (N + W - 1) / W.
Proof.
  unfold page_windows, py_range. rewrite !length_map, length_seq.
  f_equal. lia.
Qed.

(** ** The chunker *)

Lemma first_refusal_none {page} (add_page : page -> option exn) (ps : list page) :
  first_refusal add_page ps = None <-> Forall (fun p => add_page p = None) ps.
Proof.
  induction ps as [|p r IH]; simpl.
  - split; [constructor | reflexivity].
  - destruct (add_page p) as [e|] eqn:Hp.
    + split; [discriminate|]. intros H. inversion H; subst. congruence.
    + rewrite IH. split; [now constructor | intros H; now inversion H].
Qed.

Lemma first_refusal_some {page} (add_page : page -> option exn) (ps : list page)
      (e : exn) :
  first_refusal add_page ps = Some e -> exists p, In p ps /\ add_page p = Some e.
Proof.
  induction ps as [|p r IH]; simpl; [discriminate|].
  destruct (add_page p) as [e0|] eqn:Hp.
  - intros E. inversion E; subst. exists p. auto.
  - intros E. destruct (IH E) as (q & Hq & Hqe). exists q. auto.
Qed.

Lemma Forall2_nth_error {A B} (R : A -> B -> Prop) (l : list A) (l' : list B) :
  Forall2 R l l' ->
  forall i a, nth_error l i = Some a -> exists b, nth_error l' i = Some b /\ R a b.
Proof.
  induction 1 as [|x y l l' Hxy _ IH]; intros [|i] a Hi; simpl in *; try discriminate.
  - inversion Hi; subst. eauto.
  - now apply IH.
Qed.

Module ChunkerFacts.
Section WithLibraries.

Variable page : Type.
Variable open_rb : str -> option (list Byte.byte).
Variable PdfReader : list Byte.byte -> option (list page * nat).
Variable add_page : page -> option exn.
Variable write_b64 : list page -> exn + str.
Variable md5_hexdigest : list Byte.byte -> str.

Local Abbreviation process_pdf :=
  (Chunker.process_pdf open_rb PdfReader add_page write_b64 md5_hexdigest).
Local Abbreviation holds := (holds_window add_page write_b64).
Local Abbreviation chunk_loop := (Chunker.chunk_loop add_page write_b64).

(** The inner loop over a range within the document: it stops at the first
    page that is refused, and otherwise the writer holds, after what it
    held, the pages of the range in order.  No index is out of range. *)
Lemma add_pages_seq (pages : list page) :
  forall n a pdf_writer, a + n <= length pages ->
    Chunker.add_pages add_page pages (seq a n) pdf_writer
    = match first_refusal add_page (firstn n (skipn a pages)) with
      | Some e => inl e
      | None => inr (pdf_writer ++ firstn n (skipn a pages))
      end.
Proof.
  induction n as [|n IH]; intros a pdf_writer Hlen; simpl.
  - now rewrite app_nil_r.
  - destruct (nth_error pages a) as [p|] eqn:Hp.
    + rewrite (skipn_cons_nth _ _ Hp). simpl.
      destruct (add_page p); [reflexivity|].
      rewrite IH by lia. destruct (first_refusal _ _); [reflexivity|].
      now rewrite <- app_assoc.
    + apply nth_error_None in Hp. lia.
Qed.

(** One turn of the outer loop, for a window within the document. *)
Lemma chunk_loop_step (file_path : str) (pages : list page) (a b : nat)
      (rest : list (nat * nat)) (documents : list DocumentUnit) :
  a <= b -> b <= length pages ->
  chunk_loop file_path pages ((a, b) :: rest) documents
  = match first_refusal add_page (slice pages (a, b)) with
    | Some e => inl e
    | None =>
        match write_b64 (slice pages (a, b)) with
        | inl e => inl e
        | inr base64_pdf =>
            chunk_loop file_path pages rest
                       (documents ++ [Chunker.make_unit file_path a b base64_pdf])
        end
    end.
Proof.
  intros Hab Hb. cbn [Chunker.chunk_loop].
  rewrite py_range_unit_step, add_pages_seq by lia.
  unfold slice. cbn [fst snd app]. destruct (first_refusal _ _); reflexivity.
Qed.

Lemma make_unit_holds (file_path : str) (pages : list page) (a b : nat)
      (base64_pdf : str) :
  first_refusal add_page (slice pages (a, b)) = None ->
  write_b64 (slice pages (a, b)) = inr base64_pdf ->
  holds file_path pages (a, b) (Chunker.make_unit file_path a b base64_pdf).
Proof.
  intros Hr Hw. unfold holds_window. rewrite Hw.
  apply first_refusal_none in Hr. repeat split. exact Hr.
Qed.

Lemma holds_make_unit (file_path : str) (pages : list page) (a b : nat)
      (d : DocumentUnit) :
  holds file_path pages (a, b) d ->
  first_refusal add_page (slice pages (a, b)) = None
  /\ write_b64 (slice pages (a, b)) = inr (data (source d))
  /\ d = Chunker.make_unit file_path a b (data (source d)).
Proof.
  intros (Hacc & Hw & Ht & Hdt & Hst & Hmt & Hce).
  split; [now apply first_refusal_none|]. split; [exact Hw|].
  destruct d as [dt [st mt dat] ti ce]. simpl in *. subst.
  reflexivity.
Qed.

(** The outer loop returns exactly the units of its windows. *)
Lemma chunk_loop_returns (file_path : str) (pages : list page) (W : nat) :
  forall ws lo hi documents out,
    tiles W lo ws hi -> hi <= length pages ->
    (chunk_loop file_path pages ws documents = inr out
     <-> exists ds, out = documents ++ ds
                    /\ Forall2 (holds file_path pages) ws ds).
Proof.
  induction ws as [|[a b] rest IH]; intros lo hi documents out Ht Hhi.
  - simpl. split.
    + intros E. inversion E; subst. exists []. split; [now rewrite app_nil_r | constructor].
    + intros (ds & -> & H). inversion H; subst. now rewrite app_nil_r.
  - simpl in Ht. destruct Ht as (_ & Hab & _ & Hrest).
    pose proof (tiles_le _ _ _ _ Hrest) as Hb.
    rewrite chunk_loop_step by lia. split.
    + destruct (first_refusal add_page (slice pages (a, b))) eqn:Hr; [discriminate|].
      destruct (write_b64 (slice pages (a, b))) as [e|base64_pdf] eqn:Hw; [discriminate|].
      intros E. apply (IH _ _ _ _ Hrest Hhi) in E. destruct E as (ds & -> & Hds).
      exists (Chunker.make_unit file_path a b base64_pdf :: ds).
      split; [now rewrite <- app_assoc|].
      constructor; [now apply make_unit_holds | exact Hds].
    + intros (ds & -> & Hds). inversion Hds as [|w d ws' ds' Hd Hds']; subst.
      apply holds_make_unit in Hd. destruct Hd as (Hr & Hw & Hd).
      rewrite Hr, Hw. apply (IH _ _ _ _ Hrest Hhi).
      exists ds'. split; [|exact Hds']. rewrite <- app_assoc. simpl. now rewrite <- Hd.
Qed.

(** When the outer loop raises, a page of some window was refused or the
    pages of some window could not be written. *)
Lemma chunk_loop_raises (file_path : str) (pages : list page) (W : nat) (e : exn) :
  forall ws lo hi documents,
    tiles W lo ws hi -> hi <= length pages ->
    chunk_loop file_path pages ws documents = inl e ->
    exists w, In w ws
              /\ ((exists p, In p (slice pages w) /\ add_page p = Some e)
                  \/ write_b64 (slice pages w) = inl e).
Proof.
  induction ws as [|[a b] rest IH]; intros lo hi documents Ht Hhi E.
  - discriminate.
  - simpl in Ht. destruct Ht as (_ & Hab & _ & Hrest).
    pose proof (tiles_le _ _ _ _ Hrest) as Hb.
    rewrite chunk_loop_step in E by lia.
    destruct (first_refusal add_page (slice pages (a, b))) as [e0|] eqn:Hr.
    + inversion E; subst. apply first_refusal_some in Hr.
      exists (a, b). split; [now left | now left].
    + destruct (write_b64 (slice pages (a, b))) as [e0|base64_pdf] eqn:Hw.
      * inversion E; subst. exists (a, b). split; [now left | now right].
      * destruct (IH _ _ _ Hrest Hhi E) as (w & Hin & Hw').
        exists w. split; [now right | exact Hw'].
Qed.

(** What [process_pdf] is once the file opens and parses. *)
Lemma process_pdf_parsed (file_path : str) (bytes : list Byte.byte)
      (pages : list page) (pos : nat) :
  open_rb file_path = Some bytes ->
  PdfReader bytes = Some (pages, pos) ->
  process_pdf file_path
  = match chunk_loop file_path pages (page_windows max_pages (length pages)) [] with
    | inl e => inl e
    | inr documents => inr (documents, md5_hexdigest (skipn pos bytes))
    end.
Proof.
  intros Hopen Hparse. unfold Chunker.process_pdf.
  rewrite Hopen. simpl. rewrite Hparse. reflexivity.
Qed.

(** [process_pdf] returns exactly the units of the windows, with the digest
    of what was left of the stream. *)
Lemma process_pdf_returns (file_path : str) (bytes : list Byte.byte)
      (pages : list page) (pos : nat) (documents : list DocumentUnit)
      (content_hash : str) :
  open_rb file_path = Some bytes ->
  PdfReader bytes = Some (pages, pos) ->
  (process_pdf file_path = inr (documents, content_hash)
   <-> Forall2 (holds file_path pages)
               (page_windows max_pages (length pages)) documents
       /\ content_hash = md5_hexdigest (skipn pos bytes)).
Proof.
  intros Hopen Hparse. rewrite (@process_pdf_parsed _ _ _ _ Hopen Hparse).
  assert (Ht : tiles max_pages 0 (page_windows max_pages (length pages)) (length pages))
    by (apply page_windows_tiles; unfold max_pages; lia).
  pose proof (fun out => @chunk_loop_returns file_path pages max_pages _ 0
                           (length pages) [] out Ht (le_n _)) as Hloop.
  destruct (chunk_loop file_path pages _ []) as [e|out] eqn:E.
  - split; [discriminate|]. intros [H _].
    assert (Hx : @inl exn (list DocumentUnit) e = inr documents)
      by (apply Hloop; exists documents; auto).
    discriminate.
  - split.
    + intros Eq. inversion Eq; subst. split; [|reflexivity].
      destruct (proj1 (Hloop documents) eq_refl) as (ds & -> & Hds). exact Hds.
    + intros [H ->].
      assert (Hx : @inr exn (list DocumentUnit) out = inr documents)
        by (apply Hloop; exists documents; auto).
      inversion Hx; subst. reflexivity.
Qed.

Lemma returns_inr {E A} (r : E + A) : returns r = true <-> exists a, r = inr a.
Proof.
  destruct r; simpl; split; try discriminate; eauto.
  intros [a0 H]. discriminate.
Qed.

Lemma holds_length (file_path : str) (pages : list page) (ws : list (nat * nat))
      (documents : list DocumentUnit) :
  Forall2 (holds file_path pages) ws documents -> length documents = length ws.
Proof. induction 1; simpl; congruence. Qed.

(** C4: for every window size [W > 0] and every document of [N] pages, the
    windows of the chunking loop tile the page indices [0, N): they are
    consecutive, non-empty, at most [W] wide, ascending, their widths add
    up to [N], and the pages they select, concatenated, are the pages of
    the document in order.  The units [process_pdf] returns (where [W] is
    100) are, in order, those of the windows: the data of each is what the
    writer gave for exactly the pages of its window, and its title names
    that window. *)
Theorem process_pdf_partitions_pages (W : nat) (file_path : str)
        (bytes : list Byte.byte) (pages : list page) (pos : nat)
        (documents : list DocumentUnit) (content_hash : str) :
  0 < W ->
  open_rb file_path = Some bytes ->
  PdfReader bytes = Some (pages, pos) ->
  process_pdf file_path = inr (documents, content_hash) ->
  let N := length pages in
  (tiles W 0 (page_windows W N) N
   /\ list_sum (map width (page_windows W N)) = N
   /\ concat (map (slice pages) (page_windows W N)) = pages)
  /\ Forall2 (fun w d =>
                write_b64 (slice pages w) = inr (data (source d))
                /\ title d = page_range_title file_path w)
             (page_windows max_pages N) documents.
Proof.
  intros HW Hopen Hparse Hret N.
  pose proof (page_windows_tiles N HW) as Ht.
  split; [repeat split|].
  - exact Ht.
  - rewrite (tiles_width_sum _ _ _ _ Ht). lia.
  - rewrite (tiles_concat_slices pages _ _ _ _ Ht).
    rewrite Nat.sub_0_r. simpl. apply firstn_all.
  - apply (@process_pdf_returns _ _ _ _ _ _ Hopen Hparse) in Hret. destruct Hret as [H _].
    eapply Forall2_impl; [|exact H].
    intros w d (_ & Hw & Htitle & _). auto.
Qed.

(** C9: for a file that opens and parses, [process_pdf] returns exactly
    when no page is refused and every window's pages can be written; with
    no page at all it returns no unit and the fingerprint; whenever it
    returns, the number of units is the ceiling of [N / 100]. *)
Theorem process_pdf_unit_count (file_path : str) (bytes : list Byte.byte)
        (pages : list page) (pos : nat) :
  open_rb file_path = Some bytes ->
  PdfReader bytes = Some (pages, pos) ->
  (returns (process_pdf file_path) = true
   <-> Forall (fun p => add_page p = None) pages
       /\ Forall (fun w => returns (write_b64 (slice pages w)) = true)
                 (page_windows max_pages (length pages)))
  /\ (pages = [] ->
      process_pdf file_path = inr ([], md5_hexdigest (skipn pos bytes)))
  /\ (forall documents content_hash,
         process_pdf file_path = inr (documents, content_hash) ->
         length documents = (length pages + 99) / 100
         /\ length pages <= 100 * length documents < length pages + 100).
Proof.
  intros Hopen Hparse.
  assert (Ht : tiles max_pages 0 (page_windows max_pages (length pages)) (length pages))
    by (apply page_windows_tiles; unfold max_pages; lia).
  assert (Hcat : concat (map (slice pages) (page_windows max_pages (length pages)))
                 = pages).
  { rewrite (tiles_concat_slices pages _ _ _ _ Ht), Nat.sub_0_r. apply firstn_all. }
  split; [|split].
  - rewrite returns_inr. split.
    + intros [[documents content_hash] Hret].
      apply (@process_pdf_returns _ _ _ _ _ _ Hopen Hparse) in Hret. destruct Hret as [H _].
      split.
      * rewrite <- Hcat. apply Forall_concat. apply Forall_map.
        clear Hcat Ht. induction H as [|w d ws ds Hwd _ IH]; constructor; [|exact IH].
        apply Hwd.
      * clear Hcat Ht. induction H as [|w d ws ds Hwd _ IH]; constructor; [|exact IH].
        destruct Hwd as (_ & Hw & _). now rewrite Hw.
    + intros [Hacc Hwr]. rewrite <- Hcat in Hacc.
      apply Forall_concat in Hacc. rewrite Forall_map in Hacc.
      assert (Hds : exists ds, Forall2 (holds file_path pages)
                                       (page_windows max_pages (length pages)) ds).
      { clear Hcat Ht.
        induction (page_windows max_pages (length pages)) as [|[a b] ws IH].
        - exists []. constructor.
        - inversion Hacc; subst. inversion Hwr; subst.
          destruct (IH H2 H4) as [ds Hds].
          destruct (write_b64 (slice pages (a, b))) as [e|base64_pdf] eqn:Hw;
            [discriminate|].
          exists (Chunker.make_unit file_path a b base64_pdf :: ds).
          constructor; [|exact Hds].
          apply make_unit_holds; [now apply first_refusal_none | exact Hw]. }
      destruct Hds as [ds Hds].
      exists (ds, md5_hexdigest (skipn pos bytes)).
      apply (@process_pdf_returns _ _ _ _ _ _ Hopen Hparse). auto.
  - intros ->. rewrite (@process_pdf_parsed _ _ _ _ Hopen Hparse). reflexivity.
  - intros documents content_hash Hret.
    apply (@process_pdf_returns _ _ _ _ _ _ Hopen Hparse) in Hret. destruct Hret as [H _].
    rewrite (holds_length H), page_windows_length. unfold max_pages.
    replace (length pages + 100 - 1) with (length pages + 99) by lia.
    pose proof (Nat.div_mod_eq (length pages + 99) 100).
    pose proof (Nat.mod_upper_bound (length pages + 99) 100). lia.
Qed.

(** C8: whenever [process_pdf] returns for a 250-page document, it returns
    exactly three units, titled with the page ranges 1-100, 101-200 and
    201-250 and holding what the writer gave for the pages of indices
    0-99, 100-199 and 200-249; with no prior turn, the request for the
    question "What is the thesis?" is one user message made of those three
    units followed by one text block holding the question. *)
Theorem scenario_250_pages (file_path : str) (bytes : list Byte.byte)
        (pages : list page) (pos : nat) (documents : list DocumentUnit)
        (content_hash : str) :
  open_rb file_path = Some bytes ->
  PdfReader bytes = Some (pages, pos) ->
  length pages = 250 ->
  process_pdf file_path = inr (documents, content_hash) ->
  exists d1 d2 d3,
    documents = [d1; d2; d3]
    /\ title d1 = basename file_path ++ lit " (pages 1-100)"
    /\ title d2 = basename file_path ++ lit " (pages 101-200)"
    /\ title d3 = basename file_path ++ lit " (pages 201-250)"
    /\ write_b64 (firstn 100 pages) = inr (data (source d1))
    /\ write_b64 (firstn 100 (skipn 100 pages)) = inr (data (source d2))
    /\ write_b64 (firstn 50 (skipn 200 pages)) = inr (data (source d3))
    /\ buildRequest documents (lit "What is the thesis?") []
       = [{| msg_role := user;
             msg_content := [DocBlock d1; DocBlock d2; DocBlock d3;
                             TextBlock (lit "What is the thesis?")] |}].
Proof.
  intros Hopen Hparse Hlen Hret.
  apply (@process_pdf_returns _ _ _ _ _ _ Hopen Hparse) in Hret. destruct Hret as [H _].
  rewrite Hlen in H.
  change (page_windows max_pages 250) with [(0, 100); (100, 200); (200, 250)] in H.
  inversion H as [|w1 d1 ws1 ds1 H1 H']; subst.
  inversion H' as [|w2 d2 ws2 ds2 H2 H'']; subst.
  inversion H'' as [|w3 d3 ws3 ds3 H3 H''']; subst.
  inversion H'''; subst.
  destruct H1 as (_ & Hw1 & Ht1 & _), H2 as (_ & Hw2 & Ht2 & _),
           H3 as (_ & Hw3 & Ht3 & _).
  exists d1, d2, d3. repeat split; assumption.
Qed.

(** C2 (the code departs from the claim): the fingerprint is the digest of
    what [file.read()] returns after the PDF reader has used the stream,
    that is of the bytes from the position where the reader left the file
    to its end; as soon as that position is not the start of a non-empty
    file, this is not the file's full content. *)
Theorem process_pdf_hashes_rest_of_stream (file_path : str)
        (bytes : list Byte.byte) (pages : list page) (pos : nat) :
  open_rb file_path = Some bytes ->
  PdfReader bytes = Some (pages, pos) ->
  returns (process_pdf file_path) = true ->
  0 < pos ->
  bytes <> [] ->
  (exists documents,
      process_pdf file_path = inr (documents, md5_hexdigest (skipn pos bytes)))
  /\ skipn pos bytes <> bytes.
Proof.
  intros Hopen Hparse Hret Hpos Hne. split.
  - apply returns_inr in Hret. destruct Hret as [[documents content_hash] Hret].
    exists documents. rewrite Hret.
    apply (@process_pdf_returns _ _ _ _ _ _ Hopen Hparse) in Hret. destruct Hret as [_ ->].
    reflexivity.
  - intros E. apply (f_equal (@length _)) in E. rewrite length_skipn in E.
    assert (0 < length bytes) by (destruct bytes; simpl; [congruence | lia]).
    lia.
Qed.

End WithLibraries.
End ChunkerFacts.

(** ** Request assembly *)

Module AssemblerFacts.

Lemma append_history_filter (history : list Turn) :
  forall messages,
    append_history messages history
    = messages ++ map history_message (filter nonblank history).
Proof.
  induction history as [|t rest IH]; intros messages; simpl.
  - now rewrite app_nil_r.
  - unfold nonblank at 1. rewrite truthy_strip.
    destruct (negb (blank (content t))); rewrite IH; simpl.
    + now rewrite <- app_assoc.
    + reflexivity.
Qed.

Lemma buildRequest_filter (documents : list DocumentUnit) (prompt : str)
      (history : list Turn) :
  buildRequest documents prompt history
  = first_message documents prompt :: map history_message (filter nonblank history).
Proof.
  unfold buildRequest. destruct history as [|t rest]; [reflexivity|].
  now rewrite append_history_filter.
Qed.

Lemma filter_is_doc_docs (documents : list DocumentUnit) :
  filter is_doc (map DocBlock documents) = map DocBlock documents.
Proof. induction documents; simpl; congruence. Qed.

Lemma history_has_no_doc (ts : list Turn) :
  filter is_doc (flat_map msg_content (map history_message ts)) = [].
Proof. induction ts; simpl; assumption || reflexivity. Qed.

(** C5: the request is the first message (all documents, then the prompt)
    followed by one text-only message per prior turn whose text is not
    blank, in order; no message comes from a turn whose text is empty or
    all whitespace; the document blocks of the whole request are those of
    the first message, once each, whatever the history. *)
Theorem buildRequest_history_law (documents : list DocumentUnit) (prompt : str)
        (history : list Turn) :
  let request := buildRequest documents prompt history in
  request = first_message documents prompt
              :: map history_message (filter nonblank history)
  /\ Forall (fun m => exists t, In t history /\ m = history_message t
                               /\ blank (content t) = false
                               /\ content t <> [])
            (tl request)
  /\ doc_blocks request = map DocBlock documents
  /\ Forall (fun m => filter is_doc (msg_content m) = []) (tl request).
Proof.
  intros request. subst request. rewrite buildRequest_filter. simpl.
  repeat split.
  - apply Forall_forall. intros m Hm.
    apply in_map_iff in Hm. destruct Hm as (t & <- & Ht).
    apply filter_In in Ht. destruct Ht as [Hin Hnb].
    unfold nonblank in Hnb. apply negb_true_iff in Hnb.
    exists t. repeat split; try assumption.
    intros E. rewrite E in Hnb. discriminate.
  - unfold doc_blocks. simpl. rewrite filter_app, filter_app. simpl.
    rewrite filter_is_doc_docs, history_has_no_doc. now rewrite !app_nil_r.
  - apply Forall_forall. intros m Hm.
    apply in_map_iff in Hm. destruct Hm as (t & <- & _). reflexivity.
Qed.

End AssemblerFacts.

(** ** Normalisation of the reply *)

Module NormalizeFacts.

Lemma make_citation_text (cite : annotation) (c : Citation) :
  make_citation cite = inr c ->
  exists s, getattr (cited_text cite) (PyStr []) = PyStr s
            /\ text c = slice_to 150 s ++ lit "...".
Proof.
  unfold make_citation.
  destruct (getattr (cited_text cite) (PyStr [])) as [|s|z]; try discriminate.
  intros E; inversion E; subst; simpl. now exists s.
Qed.

Lemma make_citation_defaults (cite : annotation) (c : Citation) :
  make_citation cite = inr c ->
  document c = getattr (document_title cite) (PyStr (lit "Unknown Document"))
  /\ start_page c = getattr (start_page_number cite) (PyInt 0)
  /\ end_page c = getattr (end_page_number cite) (PyInt 0).
Proof.
  unfold make_citation.
  destruct (getattr (cited_text cite) (PyStr [])) as [|s|z]; try discriminate.
  intros E; inversion E; subst; simpl. repeat split.
Qed.

Lemma extend_citations_made (cites : list annotation) :
  forall citations out,
    extend_citations citations cites = inr out ->
    exists cs, out = citations ++ cs
               /\ Forall2 (fun a c => make_citation a = inr c) cites cs.
Proof.
  induction cites as [|a rest IH]; simpl; intros citations out H.
  - inversion H; subst. exists []. split; [now rewrite app_nil_r | constructor].
  - destruct (make_citation a) as [e|c] eqn:Ha; [discriminate|].
    destruct (IH _ _ H) as (cs & -> & Hcs).
    exists (c :: cs). split; [now rewrite <- app_assoc | now constructor].
Qed.

(** Every citation of the result is the record made from one annotation
    of a text block, in the order of the reply. *)
Lemma normalize_loop_made (blocks : list content_block) :
  forall citations full_response full out,
    normalize_loop blocks citations full_response = inr (full, out) ->
    exists cs, out = citations ++ cs
               /\ Forall2 (fun a c => make_citation a = inr c)
                          (annotations_of blocks) cs.
Proof.
  induction blocks as [|b rest IH]; simpl; intros citations fr full out H.
  - inversion H; subst. exists []. split; [now rewrite app_nil_r | constructor].
  - destruct (block_type b) as [ty|]; [|discriminate].
    destruct (str_eqb ty (lit "text")).
    + destruct (block_text b) as [[|t|z]|]; try discriminate.
      destruct (block_citations b) as [[|c cs]|]; simpl.
      * exact (IH _ _ _ _ H).
      * change (match make_citation c with
                | inl e => inl e
                | inr c0 => extend_citations (citations ++ [c0]) cs
                end)
          with (extend_citations citations (c :: cs)) in H.
        destruct (extend_citations citations (c :: cs)) as [e|mid] eqn:Hext;
          [discriminate|].
        apply extend_citations_made in Hext. destruct Hext as (cs1 & -> & H1).
        destruct (IH _ _ _ _ H) as (cs2 & -> & H2).
        exists (cs1 ++ cs2). split; [now rewrite app_assoc|].
        exact (Forall2_app H1 H2).
      * exact (IH _ _ _ _ H).
    + exact (IH _ _ _ _ H).
Qed.

Lemma normalize_made (blocks : list content_block) (full : str)
      (out : list Citation) :
  normalize blocks = inr (full, out) ->
  Forall2 (fun a c => make_citation a = inr c) (annotations_of blocks) out.
Proof.
  intros H. apply normalize_loop_made in H. destruct H as (cs & -> & H).
  exact H.
Qed.

(** X1: the excerpt of every citation is the first 150 code points of the
    cited text followed by the ellipsis, whatever the length of the
    cited text. *)
Lemma normalize_excerpt (blocks : list content_block) (full : str)
      (out : list Citation) :
  normalize blocks = inr (full, out) ->
  Forall2 (fun a c => exists s, getattr (cited_text a) (PyStr []) = PyStr s
                                /\ text c = slice_to 150 s ++ lit "...")
          (annotations_of blocks) out.
Proof.
  intros H. apply normalize_made in H.
  induction H; constructor; [now apply make_citation_text | assumption].
Qed.

(** C6 (as amended): in the citations [normalize] returns, an annotation
    whose document-title attribute is absent gives the title
    "Unknown Document", and an annotation whose start (end) page-number
    attribute is absent gives the start (end) page 0; an attribute that is
    present is stored as it is, also when it holds [None]. *)
Theorem normalize_missing_fields (blocks : list content_block) (full : str)
        (out : list Citation) :
  normalize blocks = inr (full, out) ->
  Forall2 (fun a c =>
             (document_title a = None ->
              document c = PyStr (lit "Unknown Document"))
             /\ (forall v, document_title a = Some v -> document c = v)
             /\ (start_page_number a = None -> start_page c = PyInt 0)
             /\ (forall v, start_page_number a = Some v -> start_page c = v)
             /\ (end_page_number a = None -> end_page c = PyInt 0)
             /\ (forall v, end_page_number a = Some v -> end_page c = v))
          (annotations_of blocks) out.
Proof.
  intros H. apply normalize_made in H.
  induction H as [|a c l l' Hac _ IH]; constructor; [|exact IH].
  destruct (make_citation_defaults _ Hac) as (Hd & Hs & He).
  repeat split; intros; match goal with E : _ = _ |- _ => rewrite E in * end;
    assumption.
Qed.

End NormalizeFacts.

(** ** The prompt handler *)

Module SessionFacts.
Section WithClient.

Variable debug_mode : bool.
Variable create : list Message -> exn + response.
Variable documents : list DocumentUnit.

Local Abbreviation assemble := (Chat.assemble debug_mode documents).
Local Abbreviation dispatch := (Chat.dispatch create).
Local Abbreviation render := (Chat.render debug_mode).
Local Abbreviation try_body := (Chat.try_body debug_mode create documents).
Local Abbreviation except_handler := (Chat.except_handler debug_mode).
Local Abbreviation handle_prompt := (Chat.handle_prompt debug_mode create documents).

Ltac run := unfold bind, ret, raise, lift, emit, when, get_messages,
              append_message; simpl.

Lemma assemble_run (prompt : str) (ms : list Turn) (u : list ui_event) :
  assemble prompt {| messages := ms; ui := u |}
  = (inr (buildRequest documents prompt (removelast ms)),
     {| messages := ms;
        ui := u ++ assemble_ui debug_mode
                     (buildRequest documents prompt (removelast ms)) |}).
Proof.
  unfold Chat.assemble, assemble_ui. run.
  destruct debug_mode; simpl; rewrite <- ?app_assoc; reflexivity.
Qed.

(** The call and the checks do not touch the session. *)
Lemma dispatch_run (request : list Message) (s : session) :
  dispatch request s
  = (match create request with
     | inl e => inl e
     | inr r =>
         match validate r with
         | inl e => inl e
         | inr blocks => inr (r, blocks)
         end
     end, s).
Proof.
  unfold Chat.dispatch. run.
  destruct (create request) as [e|r]; simpl; [reflexivity|].
  destruct (validate r); reflexivity.
Qed.

Lemma for_each_emit {A} (body : A -> M unit) (f : A -> ui_event) (l : list A) :
  (forall a, body a = emit (f a)) ->
  forall ms u,
    for_each l body {| messages := ms; ui := u |}
    = (inr tt, {| messages := ms; ui := u ++ map f l |}).
Proof.
  intros Hbody. induction l as [|a l IH]; intros ms u; simpl.
  - now rewrite app_nil_r.
  - rewrite Hbody. run. rewrite IH, <- app_assoc. reflexivity.
Qed.

Lemma show_references_run (cites : list Citation) (ms : list Turn)
      (u : list ui_event) :
  Chat.show_references cites {| messages := ms; ui := u |}
  = (inr tt, {| messages := ms; ui := u ++ references_ui cites |}).
Proof.
  unfold Chat.show_references, references_ui.
  destruct cites as [|c cs]; [run; now rewrite app_nil_r|].
  unfold bind at 1 2. unfold emit at 1 2. cbn [messages ui].
  rewrite (@for_each_emit _ _
             (fun '(idx, cite) => UiMarkdown (reference_line idx cite)))
    by (intros [idx cite]; reflexivity).
  rewrite <- !app_assoc. reflexivity.
Qed.

Lemma render_run (r : response) (blocks : list content_block)
      (ms : list Turn) (u : list ui_event) :
  render r blocks {| messages := ms; ui := u |}
  = match normalize blocks with
    | inl e =>
        (inl e, {| messages := ms;
                   ui := u ++ (if debug_mode then [UiJsonResponse r] else []) |})
    | inr (full_response, cites) =>
        (inr tt, {| messages := ms ++ [assistant_turn full_response cites];
                    ui := u ++ render_ui debug_mode r full_response cites |})
    end.
Proof.
  unfold Chat.render, render_ui.
  destruct (normalize blocks) as [e|[full cites]].
  - destruct debug_mode; run; rewrite ?app_nil_r; reflexivity.
  - destruct debug_mode; run; rewrite show_references_run; simpl;
      rewrite <- ?app_assoc; reflexivity.
Qed.

Lemma try_body_run (prompt : str) (ms : list Turn) (u : list ui_event) :
  let request := buildRequest documents prompt (removelast ms) in
  let sent := {| messages := ms; ui := u ++ assemble_ui debug_mode request |} in
  try_body prompt {| messages := ms; ui := u |}
  = match create request with
    | inl e => (inl e, sent)
    | inr r =>
        match validate r with
        | inl e => (inl e, sent)
        | inr blocks => render r blocks sent
        end
    end.
Proof.
  intros request sent. unfold Chat.try_body. unfold bind at 1.
  rewrite assemble_run. unfold bind at 1. rewrite dispatch_run.
  fold request. fold sent.
  destruct (create request) as [e|r]; [reflexivity|].
  destruct (validate r); reflexivity.
Qed.

Lemma before_try_run (prompt : str) (s : session) :
  Chat.before_try prompt s
  = {| messages := messages s ++ [user_turn prompt];
       ui := ui s ++ [UiChatMessage user; UiMarkdown prompt] |}.
Proof.
  unfold Chat.before_try. run. rewrite <- app_assoc. reflexivity.
Qed.

Lemma handle_prompt_run (prompt : str) (s : session) :
  handle_prompt prompt s
  = match try_body prompt (Chat.before_try prompt s) with
    | (inl e, s') => except_handler e s'
    | (inr a, s') => (inr a, s')
    end.
Proof. reflexivity. Qed.

Lemma except_handler_run (e : exn) (ms : list Turn) (t : Turn)
      (u : list ui_event) :
  except_handler e {| messages := ms ++ [t]; ui := u |}
  = (inr tt, {| messages := ms;
                ui := u ++ [UiError e] ++ (if debug_mode then [UiCode e] else []) |}).
Proof.
  unfold Chat.except_handler, pop_message. run.
  destruct debug_mode; simpl; rewrite removelast_last;
    (destruct (ms ++ [t]) eqn:E; [now destruct ms|]);
    rewrite <- ?app_assoc; reflexivity.
Qed.

(** The [try] block raises exactly when the call, a check or the
    normalisation raises, and then the transcript still ends with the
    user's turn. *)
Lemma try_body_raises (prompt : str) (ms : list Turn) (u : list ui_event)
      (e : exn) :
  exchange_outcome create (buildRequest documents prompt (removelast ms)) = inl e ->
  exists u', try_body prompt {| messages := ms; ui := u |}
             = (inl e, {| messages := ms; ui := u' |}).
Proof.
  intros H. rewrite try_body_run. unfold exchange_outcome in H.
  destruct (create _) as [e0|r]; [inversion H; subst; eauto|].
  destruct (validate r) as [e0|blocks]; [inversion H; subst; eauto|].
  rewrite render_run.
  destruct (normalize blocks) as [e0|fc]; [inversion H; subst; eauto|discriminate].
Qed.

Lemma try_body_returns (prompt : str) (ms : list Turn) (u : list ui_event)
      (r : response) (full_response : str) (cites : list Citation) :
  let request := buildRequest documents prompt (removelast ms) in
  exchange_outcome create request = inr (r, (full_response, cites)) ->
  try_body prompt {| messages := ms; ui := u |}
  = (inr tt,
     {| messages := ms ++ [assistant_turn full_response cites];
        ui := (u ++ assemble_ui debug_mode request)
                ++ render_ui debug_mode r full_response cites |}).
Proof.
  intros request H. rewrite try_body_run. fold request.
  unfold exchange_outcome in H.
  destruct (create request) as [e0|r0]; [discriminate|].
  destruct (validate r0) as [e0|blocks]; [discriminate|].
  rewrite render_run.
  destruct (normalize blocks) as [e0|[f c]]; [discriminate|].
  inversion H; subst. reflexivity.
Qed.

(** C3: when the API call, a check on its result or the normalisation
    raises, the [try] block raises with the user's new turn still at the
    end of the transcript, the handler removes it, and the transcript
    after the exchange is the transcript before the turn was appended. *)
Theorem failed_exchange_rolls_back (prompt : str) (s : session) (e : exn) :
  exchange_outcome create (buildRequest documents prompt (messages s)) = inl e ->
  (exists u1, try_body prompt (Chat.before_try prompt s)
              = (inl e, {| messages := messages s ++ [user_turn prompt]; ui := u1 |}))
  /\ (exists u2, handle_prompt prompt s
                 = (inr tt, {| messages := messages s; ui := u2 |}))
  /\ length (messages (snd (handle_prompt prompt s))) = length (messages s).
Proof.
  intros H. rewrite handle_prompt_run, before_try_run.
  destruct (@try_body_raises prompt (messages s ++ [user_turn prompt])
              (ui s ++ [UiChatMessage user; UiMarkdown prompt]) e) as [u1 Hu1].
  { now rewrite removelast_last. }
  rewrite Hu1, except_handler_run. simpl. eauto.
Qed.

(** C10: when the call, the checks and the normalisation all succeed, the
    transcript after the exchange is the transcript before it followed by
    the user's turn and one assistant turn holding the response text and
    the citations; the turns that were there keep their place. *)
Theorem successful_exchange_appends_two (prompt : str) (s : session)
        (r : response) (full_response : str) (cites : list Citation) :
  exchange_outcome create (buildRequest documents prompt (messages s))
  = inr (r, (full_response, cites)) ->
  let s' := snd (handle_prompt prompt s) in
  fst (handle_prompt prompt s) = inr tt
  /\ messages s' = messages s ++ [user_turn prompt;
                                  assistant_turn full_response cites]
  /\ length (messages s') = length (messages s) + 2
  /\ (forall i, i < length (messages s) ->
                nth_error (messages s') i = nth_error (messages s) i).
Proof.
  intros H s'. subst s'. rewrite handle_prompt_run, before_try_run.
  rewrite (@try_body_returns prompt _ _ r full_response cites)
    by (now rewrite removelast_last).
  simpl. rewrite <- app_assoc. simpl. repeat split.
  - rewrite length_app. simpl. lia.
  - intros i Hi. now rewrite nth_error_app1.
Qed.

(** C7 (as amended): when the API call returns no result object the check
    raises the "Empty API response" error, and when the result has no
    content field it raises the "Malformed API response" error; in both
    cases the call and the checks write nothing to the page or the
    transcript and the [try] block is left at once, before the reply is
    shown or an assistant turn appended.  The user's turn, appended and
    shown before the request was sent, is still in the transcript at that
    point; the handler then removes it, so the transcript after the
    exchange is the one before it. *)
Theorem invalid_response_aborts (prompt : str) (s : session) (r : response) :
  let request := buildRequest documents prompt (messages s) in
  create request = inr r ->
  r = NoResponse \/ r = ResponseObj None ->
  let e := ValueError (match r with
                       | NoResponse => empty_response_msg
                       | ResponseObj _ => malformed_response_msg
                       end) in
  let sent := snd (assemble prompt (Chat.before_try prompt s)) in
  dispatch request sent = (inl e, sent)
  /\ try_body prompt (Chat.before_try prompt s) = (inl e, sent)
  /\ messages sent = messages s ++ [user_turn prompt]
  /\ messages (snd (handle_prompt prompt s)) = messages s
  /\ empty_response_msg <> malformed_response_msg.
Proof.
  intros request Hcreate Hr e sent.
  assert (Hv : validate r = inl e) by (destruct Hr; subst; reflexivity).
  assert (Hsent : sent = {| messages := messages s ++ [user_turn prompt];
                            ui := (ui s ++ [UiChatMessage user; UiMarkdown prompt])
                                    ++ assemble_ui debug_mode request |}).
  { subst sent. rewrite before_try_run, assemble_run. simpl.
    rewrite removelast_last. reflexivity. }
  assert (Htry : try_body prompt (Chat.before_try prompt s) = (inl e, sent)).
  { rewrite before_try_run, try_body_run, removelast_last. fold request.
    rewrite Hcreate, Hv, Hsent. reflexivity. }
  repeat split.
  - rewrite dispatch_run, Hcreate, Hv. reflexivity.
  - exact Htry.
  - rewrite Hsent. reflexivity.
  - rewrite handle_prompt_run, Htry, Hsent, except_handler_run. reflexivity.
  - discriminate.
Qed.

End WithClient.
End SessionFacts.

(** ** The properties at concrete inputs *)

Module Instances.

(** C1 (the code departs from the claim): the ellipsis is appended to
    every excerpt, so a three-character excerpt comes out with the marker
    although nothing was cut. *)
Theorem short_excerpt_gets_ellipsis :
  normalize Demo.reply_blocks
  = inr (lit "It is on page 3.",
         [{| document := PyStr (lit "Unknown Document");
             start_page := PyInt 3;
             end_page := PyInt 0;
             text := lit "abc..." |}])
  /\ lit "abc..." <> lit "abc".
Proof. split; [reflexivity | discriminate]. Qed.

Lemma process_pdf_partitions_pages_at_250 :
  (0 < 100
   /\ Demo.open_rb Demo.path = Some Demo.pdf_bytes
   /\ Demo.PdfReader Demo.pdf_bytes = Some (Demo.pages, 5)
   /\ Demo.process_pdf Demo.path = inr (Demo.units, Demo.fingerprint))
  /\ (tiles 100 0 (page_windows 100 250) 250
      /\ list_sum (map width (page_windows 100 250)) = 250
      /\ concat (map (slice Demo.pages) (page_windows 100 250)) = Demo.pages)
  /\ Forall2 (fun w d =>
                Demo.write_b64 (slice Demo.pages w) = inr (data (source d))
                /\ title d = page_range_title Demo.path w)
             (page_windows max_pages 250) Demo.units.
Proof.
  split; [split; [lia | repeat split]|].
  apply (@ChunkerFacts.process_pdf_partitions_pages
           nat Demo.open_rb Demo.PdfReader Demo.add_page Demo.write_b64 Demo.digest
           100 Demo.path Demo.pdf_bytes Demo.pages 5 Demo.units Demo.fingerprint);
    [lia | reflexivity | reflexivity | reflexivity].
Defined.

Lemma process_pdf_unit_count_at_250 :
  (Demo.open_rb Demo.path = Some Demo.pdf_bytes
   /\ Demo.PdfReader Demo.pdf_bytes = Some (Demo.pages, 5))
  /\ (returns (Demo.process_pdf Demo.path) = true
      <-> Forall (fun p => Demo.add_page p = None) Demo.pages
          /\ Forall (fun w => returns (Demo.write_b64 (slice Demo.pages w)) = true)
                    (page_windows max_pages (length Demo.pages)))
  /\ (Demo.pages = [] ->
      Demo.process_pdf Demo.path = inr ([], Demo.digest (skipn 5 Demo.pdf_bytes)))
  /\ (forall documents content_hash,
         Demo.process_pdf Demo.path = inr (documents, content_hash) ->
         length documents = (length Demo.pages + 99) / 100
         /\ length Demo.pages <= 100 * length documents < length Demo.pages + 100).
Proof.
  split; [split; reflexivity|].
  apply (@ChunkerFacts.process_pdf_unit_count
           nat Demo.open_rb Demo.PdfReader Demo.add_page Demo.write_b64 Demo.digest
           Demo.path Demo.pdf_bytes Demo.pages 5); reflexivity.
Defined.

Lemma scenario_250_pages_demo :
  (Demo.open_rb Demo.path = Some Demo.pdf_bytes
   /\ Demo.PdfReader Demo.pdf_bytes = Some (Demo.pages, 5)
   /\ length Demo.pages = 250
   /\ Demo.process_pdf Demo.path = inr (Demo.units, Demo.fingerprint))
  /\ exists d1 d2 d3,
      Demo.units = [d1; d2; d3]
      /\ title d1 = basename Demo.path ++ lit " (pages 1-100)"
      /\ title d2 = basename Demo.path ++ lit " (pages 101-200)"
      /\ title d3 = basename Demo.path ++ lit " (pages 201-250)"
      /\ Demo.write_b64 (firstn 100 Demo.pages) = inr (data (source d1))
      /\ Demo.write_b64 (firstn 100 (skipn 100 Demo.pages)) = inr (data (source d2))
      /\ Demo.write_b64 (firstn 50 (skipn 200 Demo.pages)) = inr (data (source d3))
      /\ buildRequest Demo.units (lit "What is the thesis?") []
         = [{| msg_role := user;
               msg_content := [DocBlock d1; DocBlock d2; DocBlock d3;
                               TextBlock (lit "What is the thesis?")] |}].
Proof.
  split; [repeat split|].
  apply (@ChunkerFacts.scenario_250_pages
           nat Demo.open_rb Demo.PdfReader Demo.add_page Demo.write_b64 Demo.digest
           Demo.path Demo.pdf_bytes Demo.pages 5 Demo.units Demo.fingerprint);
    reflexivity.
Defined.

Lemma process_pdf_hashes_rest_of_stream_demo :
  (Demo.open_rb Demo.path = Some Demo.pdf_bytes
   /\ Demo.PdfReader Demo.pdf_bytes = Some (Demo.pages, 5)
   /\ returns (Demo.process_pdf Demo.path) = true
   /\ 0 < 5
   /\ Demo.pdf_bytes <> [])
  /\ (exists documents,
         Demo.process_pdf Demo.path
         = inr (documents, Demo.digest (skipn 5 Demo.pdf_bytes)))
  /\ skipn 5 Demo.pdf_bytes <> Demo.pdf_bytes.
Proof.
  split.
  - split; [reflexivity|]. split; [reflexivity|]. split; [reflexivity|].
    split; [lia | discriminate].
  - apply (@ChunkerFacts.process_pdf_hashes_rest_of_stream
             nat Demo.open_rb Demo.PdfReader Demo.add_page Demo.write_b64 Demo.digest
             Demo.path Demo.pdf_bytes Demo.pages 5);
      [reflexivity | reflexivity | reflexivity | lia | discriminate].
Defined.

(** In the stand-in, where the digest spells out its input, the
    fingerprint is that of the last four bytes, not of the nine. *)
Lemma demo_fingerprint_is_not_of_the_file :
  exists documents content_hash,
    Demo.process_pdf Demo.path = inr (documents, content_hash)
    /\ content_hash = Demo.digest (skipn 5 Demo.pdf_bytes)
    /\ content_hash <> Demo.digest Demo.pdf_bytes.
Proof.
  exists Demo.units, Demo.fingerprint.
  split; [reflexivity|]. split; [reflexivity | discriminate].
Qed.

Lemma normalize_excerpt_demo :
  normalize Demo.reply_blocks
  = inr (lit "It is on page 3.",
         [{| document := PyStr (lit "Unknown Document");
             start_page := PyInt 3;
             end_page := PyInt 0;
             text := lit "abc..." |}])
  /\ Forall2 (fun a c => exists s, getattr (cited_text a) (PyStr []) = PyStr s
                                   /\ text c = slice_to 150 s ++ lit "...")
             (annotations_of Demo.reply_blocks)
             [{| document := PyStr (lit "Unknown Document");
                 start_page := PyInt 3;
                 end_page := PyInt 0;
                 text := lit "abc..." |}].
Proof.
  split; [reflexivity|].
  apply (@NormalizeFacts.normalize_excerpt
           Demo.reply_blocks (lit "It is on page 3.")). reflexivity.
Defined.

Lemma normalize_missing_fields_demo :
  normalize Demo.reply_blocks
  = inr (lit "It is on page 3.",
         [{| document := PyStr (lit "Unknown Document");
             start_page := PyInt 3;
             end_page := PyInt 0;
             text := lit "abc..." |}])
  /\ Forall2 (fun a c =>
                (document_title a = None ->
                 document c = PyStr (lit "Unknown Document"))
                /\ (forall v, document_title a = Some v -> document c = v)
                /\ (start_page_number a = None -> start_page c = PyInt 0)
                /\ (forall v, start_page_number a = Some v -> start_page c = v)
                /\ (end_page_number a = None -> end_page c = PyInt 0)
                /\ (forall v, end_page_number a = Some v -> end_page c = v))
             (annotations_of Demo.reply_blocks)
             [{| document := PyStr (lit "Unknown Document");
                 start_page := PyInt 3;
                 end_page := PyInt 0;
                 text := lit "abc..." |}].
Proof.
  split; [reflexivity|].
  apply (@NormalizeFacts.normalize_missing_fields
           Demo.reply_blocks (lit "It is on page 3.")). reflexivity.
Defined.

Lemma failed_exchange_rolls_back_demo :
  exchange_outcome Demo.failing (buildRequest [] Demo.question (messages Demo.fresh))
  = inl (APIError (lit "overloaded"))
  /\ (exists u1, Chat.try_body false Demo.failing [] Demo.question
                   (Chat.before_try Demo.question Demo.fresh)
                 = (inl (APIError (lit "overloaded")),
                    {| messages := messages Demo.fresh ++ [user_turn Demo.question];
                       ui := u1 |}))
  /\ (exists u2, Chat.handle_prompt false Demo.failing [] Demo.question Demo.fresh
                 = (inr tt, {| messages := messages Demo.fresh; ui := u2 |}))
  /\ length (messages (snd (Chat.handle_prompt false Demo.failing []
                              Demo.question Demo.fresh)))
     = length (messages Demo.fresh).
Proof.
  split; [reflexivity|].
  apply (@SessionFacts.failed_exchange_rolls_back
           false Demo.failing [] Demo.question Demo.fresh). reflexivity.
Defined.

Lemma successful_exchange_appends_two_demo :
  exchange_outcome Demo.answering
                   (buildRequest [] Demo.question (messages Demo.fresh))
  = inr (ResponseObj (Some Demo.reply_blocks),
         (lit "It is on page 3.",
          [{| document := PyStr (lit "Unknown Document");
              start_page := PyInt 3;
              end_page := PyInt 0;
              text := lit "abc..." |}]))
  /\ fst (Chat.handle_prompt false Demo.answering [] Demo.question Demo.fresh)
     = inr tt
  /\ messages (snd (Chat.handle_prompt false Demo.answering [] Demo.question
                      Demo.fresh))
     = [Demo.greeting;
        user_turn Demo.question;
        assistant_turn (lit "It is on page 3.")
          [{| document := PyStr (lit "Unknown Document");
              start_page := PyInt 3;
              end_page := PyInt 0;
              text := lit "abc..." |}]]
  /\ length (messages (snd (Chat.handle_prompt false Demo.answering []
                              Demo.question Demo.fresh)))
     = length (messages Demo.fresh) + 2
  /\ (forall i, i < length (messages Demo.fresh) ->
                nth_error (messages (snd (Chat.handle_prompt false Demo.answering []
                                            Demo.question Demo.fresh))) i
                = nth_error (messages Demo.fresh) i).
Proof.
  split; [reflexivity|].
  apply (@SessionFacts.successful_exchange_appends_two
           false Demo.answering [] Demo.question Demo.fresh
           (ResponseObj (Some Demo.reply_blocks))). reflexivity.
Defined.

Lemma invalid_response_aborts_demo :
  (Demo.silent (buildRequest [] Demo.question (messages Demo.fresh)) = inr NoResponse
   /\ (NoResponse = NoResponse \/ NoResponse = ResponseObj None))
  /\ Chat.dispatch Demo.silent (buildRequest [] Demo.question (messages Demo.fresh))
       (snd (Chat.assemble true [] Demo.question
               (Chat.before_try Demo.question Demo.fresh)))
     = (inl (ValueError empty_response_msg),
        snd (Chat.assemble true [] Demo.question
               (Chat.before_try Demo.question Demo.fresh)))
  /\ Chat.try_body true Demo.silent [] Demo.question
       (Chat.before_try Demo.question Demo.fresh)
     = (inl (ValueError empty_response_msg),
        snd (Chat.assemble true [] Demo.question
               (Chat.before_try Demo.question Demo.fresh)))
  /\ messages (snd (Chat.assemble true [] Demo.question
                      (Chat.before_try Demo.question Demo.fresh)))
     = messages Demo.fresh ++ [user_turn Demo.question]
  /\ messages (snd (Chat.handle_prompt true Demo.silent [] Demo.question Demo.fresh))
     = messages Demo.fresh
  /\ empty_response_msg <> malformed_response_msg.
Proof.
  split; [split; [reflexivity | left; reflexivity]|].
  apply (@SessionFacts.invalid_response_aborts
           true Demo.silent [] Demo.question Demo.fresh NoResponse);
    [reflexivity | left; reflexivity].
Defined.

End Instances.

(** ** Further properties of the chunker *)

Lemma page_windows_nth (W N i : nat) :
  i < (N + W - 1) / W ->
  nth_error (page_windows W N) i = Some (i * W, Nat.min (i * W + W) N).
Proof.
  intros Hi. unfold page_windows, py_range.
  replace (N - 0 + W - 1) with (N + W - 1) by lia.
  rewrite !nth_error_map, nth_error_seq.
  destruct (Nat.ltb_spec i ((N + W - 1) / W)) as [_|Hge]; [|lia].
  reflexivity.
Qed.

Lemma slice_length {A} (pages : list A) (a b : nat) :
  b <= length pages -> length (slice pages (a, b)) = b - a.
Proof.
  intros Hb. unfold slice; simpl. rewrite length_firstn, length_skipn. lia.
Qed.

(** Decimal numerals hold digits only, and tell numbers apart. *)
Definition is_digit (c : codepoint) : bool := ((48 <=? c) && (c <=? 57))%N.

Lemma string_of_uint_digits (d : Decimal.uint) :
  forallb is_digit (lit (NilEmpty.string_of_uint d)) = true.
Proof.
  induction d; simpl; try reflexivity; exact IHd.
Qed.

Lemma of_nat_digits (n : nat) : forallb is_digit (of_nat n) = true.
Proof.
  unfold of_nat, NilZero.string_of_uint.
  destruct (Nat.to_uint n) eqn:E; try reflexivity;
    rewrite <- string_of_uint_digits with (d := Nat.to_uint n); rewrite E; reflexivity.
Qed.

Lemma lit_inj (s t : string) : lit s = lit t -> s = t.
Proof.
  unfold lit. revert t. induction s as [|a s IH]; intros [|b t]; simpl;
    try discriminate; try reflexivity.
  intros E. inversion E as [[Hab Hst]].
  apply (f_equal ascii_of_N) in Hab. rewrite !ascii_N_embedding in Hab.
  subst b. f_equal. now apply IH.
Qed.

Lemma to_uint_not_nil (n : nat) : Nat.to_uint n <> Decimal.Nil.
Proof.
  intros E. pose proof (DecimalNat.Unsigned.of_to n) as H. rewrite E in H.
  simpl in H. subst n. discriminate E.
Qed.

Lemma of_nat_inj (n m : nat) : of_nat n = of_nat m -> n = m.
Proof.
  unfold of_nat. intros E. apply lit_inj in E.
  apply (f_equal NilZero.uint_of_string) in E.
  rewrite !NilZero.usu in E by apply to_uint_not_nil.
  inversion E as [H]. now apply DecimalNat.Unsigned.to_uint_inj.
Qed.

Lemma digits_before_dash (x x' r r' : str) :
  forallb is_digit x = true -> forallb is_digit x' = true ->
  x ++ 45%N :: r = x' ++ 45%N :: r' -> x = x'.
Proof.
  revert x'. induction x as [|c x IH]; intros [|c' x'] Hx Hx' E; simpl in *.
  - reflexivity.
  - inversion E; subst. discriminate.
  - inversion E; subst. discriminate.
  - apply andb_true_iff in Hx, Hx'. inversion E; subst. f_equal.
    apply IH; tauto.
Qed.

Lemma in_slice {A} (pages : list A) (w : nat * nat) (p : A) :
  In p (slice pages w) -> In p pages.
Proof.
  unfold slice. intros H.
  rewrite <- (firstn_skipn (fst w) pages). apply in_or_app. right.
  rewrite <- (firstn_skipn (snd w - fst w) (skipn (fst w) pages)).
  apply in_or_app. now left.
Qed.

Lemma page_range_title_start (file_path : str) (w w' : nat * nat) :
  page_range_title file_path w = page_range_title file_path w' -> fst w = fst w'.
Proof.
  unfold page_range_title. intros E.
  apply app_inv_head in E. apply app_inv_head in E.
  change (lit "-") with [45%N] in E. simpl in E.
  apply digits_before_dash in E; try apply of_nat_digits.
  apply of_nat_inj in E. lia.
Qed.

Module ChunkerMore.
Section WithLibraries.

Variable page : Type.
Variable open_rb : str -> option (list Byte.byte).
Variable PdfReader : list Byte.byte -> option (list page * nat).
Variable add_page : page -> option exn.
Variable write_b64 : list page -> exn + str.
Variable md5_hexdigest : list Byte.byte -> str.

Local Abbreviation process_pdf :=
  (Chunker.process_pdf open_rb PdfReader add_page write_b64 md5_hexdigest).

(** X3: whatever [process_pdf] raises was raised by [open], by the PDF
    reader, by [add_page] on a page of the document, or by writing and
    encoding the pages of one window; the page loop never indexes a page
    out of range. *)
Theorem process_pdf_failures (file_path : str) (e : exn) :
  process_pdf file_path = inl e ->
  (open_rb file_path = None /\ e = OSError)
  \/ (exists bytes, open_rb file_path = Some bytes
                    /\ PdfReader bytes = None /\ e = PdfReadError)
  \/ (exists bytes pages pos,
         open_rb file_path = Some bytes
         /\ PdfReader bytes = Some (pages, pos)
         /\ ((exists p, In p pages /\ add_page p = Some e)
             \/ (exists w, In w (page_windows max_pages (length pages))
                           /\ write_b64 (slice pages w) = inl e))).
Proof.
  intros H.
  destruct (open_rb file_path) as [bytes|] eqn:Hopen.
  - right. destruct (PdfReader bytes) as [[pages pos]|] eqn:Hparse.
    + right. exists bytes, pages, pos. split; [reflexivity|]. split; [exact Hparse|].
      rewrite (ChunkerFacts.process_pdf_parsed open_rb PdfReader add_page write_b64 md5_hexdigest file_path Hopen Hparse) in H.
      destruct (Chunker.chunk_loop _ _ _ _ _ _) as [e0|out] eqn:E; [|discriminate].
      inversion H; subst.
      assert (Ht : tiles max_pages 0 (page_windows max_pages (length pages))
                         (length pages))
        by (apply page_windows_tiles; unfold max_pages; lia).
      destruct (ChunkerFacts.chunk_loop_raises add_page write_b64 file_path pages
                  max_pages _ 0 [] Ht (le_n _) E)
        as (w & Hin & [(p & Hp & Hpe)|Hw]).
      * left. exists p. split; [|exact Hpe]. exact (in_slice _ _ _ Hp).
      * right. now exists w.
    + left. exists bytes. split; [reflexivity|]. split; [exact Hparse|].
      unfold Chunker.process_pdf in H. rewrite Hopen in H. simpl in H.
      rewrite Hparse in H. now inversion H.
  - left. unfold Chunker.process_pdf in H. rewrite Hopen in H. now inversion H.
Qed.

(** X4: the [i]-th unit in closed form: whenever [process_pdf] returns, its
    [i]-th unit is titled with pages [100 i + 1] to [min (100 i + 100) N],
    its data is what the writer gave for exactly the pages of indices
    [100 i] up to that bound, and these are 100 pages unless the unit is
    the last one, which holds the rest; no unit is empty. *)
Theorem process_pdf_nth_unit (file_path : str) (bytes : list Byte.byte)
        (pages : list page) (pos i : nat) (documents : list DocumentUnit)
        (content_hash : str) :
  open_rb file_path = Some bytes ->
  PdfReader bytes = Some (pages, pos) ->
  process_pdf file_path = inr (documents, content_hash) ->
  i < (length pages + 99) / 100 ->
  let N := length pages in
  let chunk := firstn (Nat.min (100 * i + 100) N - 100 * i) (skipn (100 * i) pages) in
  exists d,
    nth_error documents i = Some d
    /\ title d = basename file_path ++ lit " (pages " ++ of_nat (100 * i + 1)
                   ++ lit "-" ++ of_nat (Nat.min (100 * i + 100) N) ++ lit ")"
    /\ write_b64 chunk = inr (data (source d))
    /\ length chunk = (if S i <? (N + 99) / 100 then 100 else N - 100 * i)
    /\ 1 <= length chunk <= 100.
Proof.
  intros Hopen Hparse Hret Hi N chunk. subst N.
  set (N := length pages) in *.
  apply (ChunkerFacts.process_pdf_returns open_rb PdfReader add_page write_b64 md5_hexdigest file_path documents content_hash Hopen Hparse) in Hret.
  destruct Hret as [H _]. fold N in H.
  assert (Hk : i < (N + max_pages - 1) / max_pages).
  { unfold max_pages. replace (N + 100 - 1) with (N + 99) by lia. exact Hi. }
  destruct (Forall2_nth_error H i (@page_windows_nth _ _ _ Hk))
    as (d & Hd & (_ & Hw & Ht & _)).
  pose proof (Nat.div_mod_eq (N + 99) 100) as Hdiv.
  pose proof (Nat.mod_upper_bound (N + 99) 100 ltac:(lia)) as Hr.
  assert (Hlen : length chunk = Nat.min (100 * i + 100) N - 100 * i).
  { subst chunk. rewrite length_firstn, length_skipn. fold N. lia. }
  exists d. split; [exact Hd|]. split; [|split; [|split]].
  - rewrite Ht. unfold page_range_title, max_pages. simpl fst. simpl snd.
    replace (i * 100) with (100 * i) by lia. reflexivity.
  - rewrite <- Hw. unfold slice, max_pages. simpl fst. simpl snd. subst chunk.
    replace (i * 100) with (100 * i) by lia. reflexivity.
  - rewrite Hlen. destruct (Nat.ltb_spec (S i) ((N + 99) / 100)); lia.
  - rewrite Hlen. lia.
Qed.

(** X5: the titles of the units are pairwise different. *)
Theorem process_pdf_titles_distinct (file_path : str) (documents : list DocumentUnit)
        (content_hash : str) :
  process_pdf file_path = inr (documents, content_hash) ->
  NoDup (map title documents).
Proof.
  intros H.
  destruct (open_rb file_path) as [bytes|] eqn:Hopen;
    [|unfold Chunker.process_pdf in H; rewrite Hopen in H; discriminate].
  destruct (PdfReader bytes) as [[pages pos]|] eqn:Hparse;
    [|unfold Chunker.process_pdf in H; rewrite Hopen in H; simpl in H;
      rewrite Hparse in H; discriminate].
  apply (ChunkerFacts.process_pdf_returns open_rb PdfReader add_page write_b64 md5_hexdigest file_path documents content_hash Hopen Hparse) in H.
  destruct H as [H _].
  assert (Ht : map title documents
               = map (page_range_title file_path)
                     (page_windows max_pages (length pages))).
  { induction H as [|w d ws ds Hwd _ IH]; simpl; [reflexivity|].
    destruct Hwd as (_ & _ & Htitle & _). now rewrite Htitle, IH. }
  rewrite Ht. unfold page_windows, py_range. rewrite !map_map.
  apply NoDup_map_NoDup_ForallPairs; [|apply seq_NoDup].
  intros i j _ _ E. apply page_range_title_start in E. simpl in E.
  unfold max_pages in E. lia.
Qed.

End WithLibraries.
End ChunkerMore.

(** ** Further properties of the normalisation *)

Definition is_text_block (b : content_block) : bool :=
  match block_type b with
  | Some ty => str_eqb ty (lit "text")
  | None => false
  end.

Definition has_type (b : content_block) : bool :=
  match block_type b with Some _ => true | None => false end.

(** The texts of the text blocks, one after the other. *)
Definition texts_of (blocks : list content_block) : str :=
  flat_map (fun b =>
              if is_text_block b
              then match block_text b with Some (PyStr t) => t | _ => [] end
              else []) blocks.

(** An annotation the extraction loop can slice: its [cited_text] is absent
    or a string. *)
Definition annotation_ok (a : annotation) : bool :=
  match getattr (cited_text a) (PyStr []) with
  | PyStr _ => true
  | _ => false
  end.

(** A block the loop gets through: it has a [type], and if that is "text"
    its [text] is a string and its annotations can be sliced. *)
Definition block_ok (b : content_block) : bool :=
  match block_type b with
  | None => false
  | Some ty =>
      if str_eqb ty (lit "text")
      then match block_text b with
           | Some (PyStr _) => forallb annotation_ok (getattr (block_citations b) [])
           | _ => false
           end
      else true
  end.

Module NormalizeMore.

Lemma extend_citations_acc (cites : list annotation) :
  forall citations,
    extend_citations citations cites
    = match extend_citations [] cites with
      | inl e => inl e
      | inr cs => inr (citations ++ cs)
      end.
Proof.
  induction cites as [|a rest IH]; intros citations; simpl.
  - now rewrite app_nil_r.
  - destruct (make_citation a) as [e|c]; [reflexivity|].
    rewrite (IH (citations ++ [c])), (IH [c]).
    destruct (extend_citations [] rest); [reflexivity|].
    now rewrite <- app_assoc.
Qed.

Lemma extend_citations_returns (cites : list annotation) (citations : list Citation) :
  returns (extend_citations citations cites) = forallb annotation_ok cites.
Proof.
  revert citations. induction cites as [|a rest IH]; intros citations; simpl.
  - reflexivity.
  - unfold make_citation, annotation_ok.
    destruct (getattr (cited_text a) (PyStr [])); simpl; try reflexivity.
    apply IH.
Qed.

(** The loop started from given accumulators adds to them what it would
    compute from empty ones. *)
Lemma normalize_loop_acc (blocks : list content_block) :
  forall citations full_response,
    normalize_loop blocks citations full_response
    = match normalize blocks with
      | inl e => inl e
      | inr (f, cs) => inr (full_response ++ f, citations ++ cs)
      end.
Proof.
  unfold normalize.
  induction blocks as [|b rest IH]; intros citations fr; simpl.
  - now rewrite !app_nil_r.
  - destruct (block_type b) as [ty|]; [|reflexivity].
    destruct (str_eqb ty (lit "text")).
    + destruct (block_text b) as [[|t|z]|]; try reflexivity.
      destruct (block_citations b) as [[|c cs]|].
      * rewrite (IH citations (fr ++ t)), (IH [] t). simpl.
        destruct (normalize_loop rest [] []) as [e|[f cs']]; [reflexivity|].
        now rewrite <- app_assoc.
      * change (match make_citation c with
                | inl e => inl e
                | inr c0 => extend_citations (citations ++ [c0]) cs
                end) with (extend_citations citations (c :: cs)).
        change (match make_citation c with
                | inl e => inl e
                | inr c0 => extend_citations [c0] cs
                end) with (extend_citations [] (c :: cs)).
        rewrite (extend_citations_acc (c :: cs) citations).
        destruct (extend_citations [] (c :: cs)) as [e|mid]; [reflexivity|].
        rewrite (IH (citations ++ mid) (fr ++ t)), (IH mid t). simpl.
        destruct (normalize_loop rest [] []) as [e|[f cs']]; [reflexivity|].
        now rewrite <- !app_assoc.
      * rewrite (IH citations (fr ++ t)), (IH [] t). simpl.
        destruct (normalize_loop rest [] []) as [e|[f cs']]; [reflexivity|].
        now rewrite <- app_assoc.
    + apply IH.
Qed.

Lemma normalize_cons (b : content_block) (rest : list content_block) :
  normalize (b :: rest)
  = match normalize [b] with
    | inl e => inl e
    | inr (f1, c1) =>
        match normalize rest with
        | inl e => inl e
        | inr (f2, c2) => inr (f1 ++ f2, c1 ++ c2)
        end
    end.
Proof.
  unfold normalize. simpl.
  destruct (block_type b) as [ty|]; [|reflexivity].
  destruct (str_eqb ty (lit "text")).
  - destruct (block_text b) as [[|t|z]|]; try reflexivity.
    destruct (block_citations b) as [[|c cs]|]; simpl.
    + rewrite normalize_loop_acc. unfold normalize.
      destruct (normalize_loop rest [] []) as [e|[f cs']]; simpl;
        rewrite ?app_nil_r; reflexivity.
    + destruct (make_citation c) as [e|c0]; [reflexivity|]. simpl.
      destruct (extend_citations [c0] cs) as [e|mid]; [reflexivity|].
      rewrite normalize_loop_acc. unfold normalize.
      destruct (normalize_loop rest [] []) as [e|[f cs']]; simpl;
        rewrite ?app_nil_r; reflexivity.
    + rewrite normalize_loop_acc. unfold normalize.
      destruct (normalize_loop rest [] []) as [e|[f cs']]; simpl;
        rewrite ?app_nil_r; reflexivity.
  - fold (normalize rest). destruct (normalize rest) as [e|[f cs']]; reflexivity.
Qed.

(** X6: normalising a reply split in two: the texts and the citations of the
    two parts are concatenated, and the first failure is the failure. *)
Theorem normalize_app (blocks1 blocks2 : list content_block) :
  normalize (blocks1 ++ blocks2)
  = match normalize blocks1 with
    | inl e => inl e
    | inr (f1, c1) =>
        match normalize blocks2 with
        | inl e => inl e
        | inr (f2, c2) => inr (f1 ++ f2, c1 ++ c2)
        end
    end.
Proof.
  induction blocks1 as [|b rest IH].
  - simpl. change (normalize []) with (@inr exn _ (@nil codepoint, @nil Citation)).
    destruct (normalize blocks2) as [e|[f c]]; reflexivity.
  - rewrite <- app_comm_cons, normalize_cons, IH, (normalize_cons b rest).
    destruct (normalize [b]) as [e|[f1 c1]]; [reflexivity|].
    destruct (normalize rest) as [e|[f2 c2]]; [reflexivity|].
    destruct (normalize blocks2) as [e|[f3 c3]]; [reflexivity|].
    now rewrite !app_assoc.
Qed.

(** X7: the response text is the texts of the text blocks, in order. *)
Theorem normalize_full_response (blocks : list content_block) (full : str)
        (cites : list Citation) :
  normalize blocks = inr (full, cites) -> full = texts_of blocks.
Proof.
  revert full cites. induction blocks as [|b rest IH]; intros full cites H.
  - inversion H. reflexivity.
  - rewrite normalize_cons in H.
    destruct (normalize [b]) as [e|[f1 c1]] eqn:Hb; [discriminate|].
    destruct (normalize rest) as [e|[f2 c2]]; [discriminate|].
    inversion H; subst. simpl. rewrite <- (IH f2 c2 eq_refl). f_equal.
    unfold normalize in Hb. simpl in Hb. unfold is_text_block.
    destruct (block_type b) as [ty|]; [|discriminate].
    destruct (str_eqb ty (lit "text")).
    + destruct (block_text b) as [[|t|z]|]; try discriminate.
      destruct (block_citations b) as [[|c cs]|]; simpl in Hb.
      * now inversion Hb.
      * destruct (make_citation c); [discriminate|].
        destruct (extend_citations _ cs); [discriminate|]. now inversion Hb.
      * now inversion Hb.
    + now inversion Hb.
Qed.

(** X8: blocks of another type than "text" are skipped: when every block has
    a [type], dropping the non-text blocks changes nothing. *)
Theorem normalize_skips_other_blocks (blocks : list content_block) :
  forallb has_type blocks = true ->
  normalize (filter is_text_block blocks) = normalize blocks.
Proof.
  induction blocks as [|b rest IH]; intros H; [reflexivity|].
  simpl in H. apply andb_true_iff in H. destruct H as [Hb Hrest].
  simpl. rewrite (normalize_cons b rest).
  destruct (is_text_block b) eqn:Ht.
  - rewrite normalize_cons, (IH Hrest). reflexivity.
  - rewrite (IH Hrest).
    assert (Hskip : normalize [b] = inr ([], [])).
    { unfold normalize. simpl. unfold is_text_block, has_type in *.
      destruct (block_type b) as [ty|]; [|discriminate]. now rewrite Ht. }
    rewrite Hskip. destruct (normalize rest) as [e|[f c]]; reflexivity.
Qed.

(** X9: [normalize] returns exactly when every block has a [type], every text
    block has a string for [text], and every annotation it visits has a
    [cited_text] that is absent or a string. *)
Theorem normalize_returns_iff (blocks : list content_block) :
  returns (normalize blocks) = forallb block_ok blocks.
Proof.
  induction blocks as [|b rest IH]; [reflexivity|].
  rewrite normalize_cons. simpl. rewrite <- IH.
  assert (Hb : returns (normalize [b]) = block_ok b).
  { unfold normalize, block_ok. cbn [normalize_loop].
    destruct (block_type b) as [ty|]; [|reflexivity].
    destruct (str_eqb ty (lit "text")); [|reflexivity].
    destruct (block_text b) as [[|t|z]|]; try reflexivity.
    destruct (block_citations b) as [[|c cs]|]; cbn [getattr]; try reflexivity.
    rewrite <- (extend_citations_returns (c :: cs) []).
    destruct (extend_citations [] (c :: cs)); reflexivity. }
  rewrite <- Hb.
  destruct (normalize [b]) as [e|[f1 c1]]; [reflexivity|].
  destruct (normalize rest) as [e|[f2 c2]]; reflexivity.
Qed.

(** X10: every stored excerpt ends with the three-character marker and has at
    most 153 code points. *)
Theorem normalize_excerpt_bounded (blocks : list content_block) (full : str)
        (cites : list Citation) :
  normalize blocks = inr (full, cites) ->
  Forall (fun c => exists kept, text c = kept ++ lit "..."
                                /\ length kept <= 150
                                /\ length (text c) <= 153) cites.
Proof.
  intros H. apply NormalizeFacts.normalize_made in H.
  induction H as [|a c l l' Hac _ IH]; constructor; [|exact IH].
  destruct (NormalizeFacts.make_citation_text _ Hac) as (s & _ & Ht).
  exists (slice_to 150 s). rewrite Ht. unfold slice_to.
  split; [reflexivity|].
  rewrite length_app, length_firstn. change (length (lit "...")) with 3. lia.
Qed.

End NormalizeMore.

(** ** Further properties of the prompt handler *)

(** The reply dumped by the debug mode before the normalisation failed. *)
Definition failure_dump (debug_mode : bool) (create : list Message -> exn + response)
           (request : list Message) : list ui_event :=
  match create request with
  | inl _ => []
  | inr r =>
      match validate r with
      | inl _ => []
      | inr _ => if debug_mode then [UiJsonResponse r] else []
      end
  end.

(** What handling a prompt adds to the page, given the transcript it finds. *)
Definition exchange_page (debug_mode : bool) (create : list Message -> exn + response)
           (documents : list DocumentUnit) (prompt : str) (history : list Turn)
  : list ui_event :=
  let request := buildRequest documents prompt history in
  [UiChatMessage user; UiMarkdown prompt]
    ++ assemble_ui debug_mode request
    ++ match exchange_outcome create request with
       | inl e =>
           failure_dump debug_mode create request
             ++ [UiError e] ++ (if debug_mode then [UiCode e] else [])
       | inr (r, (full_response, cites)) =>
           render_ui debug_mode r full_response cites
       end.

(** What it adds to the transcript. *)
Definition exchange_turns (create : list Message -> exn + response)
           (documents : list DocumentUnit) (prompt : str) (history : list Turn)
  : list Turn :=
  match exchange_outcome create (buildRequest documents prompt history) with
  | inl _ => []
  | inr (_, (full_response, cites)) =>
      [user_turn prompt; assistant_turn full_response cites]
  end.

(** Output that only the debug mode produces, and output that is not
    replayed on the next run. *)
Definition debug_event (e : ui_event) : bool :=
  match e with
  | UiSubheader _ | UiJsonRequest _ | UiJsonResponse _ | UiCode _ => true
  | _ => false
  end.

Definition transient_event (e : ui_event) : bool :=
  match e with
  | UiSpinner _ => true
  | _ => debug_event e
  end.

(** What the replay loop shows for one turn. *)
Definition turn_ui (t : Turn) : list ui_event :=
  [UiChatMessage (turn_role t); UiMarkdown (content t)] ++ references_ui (citations t).

Module SessionMore.
Section WithClient.

Variable debug_mode : bool.
Variable create : list Message -> exn + response.
Variable documents : list DocumentUnit.

Local Abbreviation handle_prompt := (Chat.handle_prompt debug_mode create documents).

(** The handler as a function of the reply. *)
Lemma handle_prompt_exact (prompt : str) (s : session) :
  handle_prompt prompt s
  = (inr tt,
     {| messages := messages s ++ exchange_turns create documents prompt (messages s);
        ui := ui s ++ exchange_page debug_mode create documents prompt (messages s) |}).
Proof.
  rewrite SessionFacts.handle_prompt_run, SessionFacts.before_try_run.
  rewrite SessionFacts.try_body_run, removelast_last.
  unfold exchange_turns, exchange_page, exchange_outcome, failure_dump.
  set (request := buildRequest documents prompt (messages s)).
  destruct (create request) as [e|r].
  - rewrite SessionFacts.except_handler_run. rewrite app_nil_r.
    simpl. rewrite <- !app_assoc. reflexivity.
  - destruct (validate r) as [e|blocks].
    + rewrite SessionFacts.except_handler_run. rewrite app_nil_r.
      simpl. rewrite <- !app_assoc. reflexivity.
    + rewrite SessionFacts.render_run.
      destruct (normalize blocks) as [e|[full cites]].
      * rewrite SessionFacts.except_handler_run. rewrite app_nil_r.
        simpl. rewrite <- !app_assoc. reflexivity.
      * simpl. rewrite <- !app_assoc. reflexivity.
Qed.

(** X11: the handler never lets an exception out, and it leaves the transcript
    as it found it or with a user turn and an assistant turn added. *)
Theorem handle_prompt_never_raises (prompt : str) (s : session) :
  fst (handle_prompt prompt s) = inr tt
  /\ (messages (snd (handle_prompt prompt s)) = messages s
      \/ exists full_response cites,
          messages (snd (handle_prompt prompt s))
          = messages s ++ [user_turn prompt; assistant_turn full_response cites]).
Proof.
  rewrite handle_prompt_exact. simpl. split; [reflexivity|].
  unfold exchange_turns.
  destruct (exchange_outcome _ _) as [e|[r [f c]]].
  - left. apply app_nil_r.
  - right. now exists f, c.
Qed.

(** X12: every failure is shown: the last thing on the page is the error (then
    the traceback in debug mode), and what was on the page stays. *)
Theorem failure_is_shown (prompt : str) (s : session) (e : exn) :
  exchange_outcome create (buildRequest documents prompt (messages s)) = inl e ->
  exists shown,
    ui (snd (handle_prompt prompt s))
    = ui s ++ shown ++ [UiError e] ++ (if debug_mode then [UiCode e] else [])
    /\ Forall (fun x => forall e', x <> UiError e') shown.
Proof.
  intros H. rewrite handle_prompt_exact. simpl. unfold exchange_page. rewrite H.
  exists ([UiChatMessage user; UiMarkdown prompt]
            ++ assemble_ui debug_mode (buildRequest documents prompt (messages s))
            ++ failure_dump debug_mode create
                 (buildRequest documents prompt (messages s))).
  split; [now rewrite <- !app_assoc|].
  unfold assemble_ui, failure_dump.
  repeat (apply Forall_app; split); repeat constructor; try discriminate.
  - destruct debug_mode; repeat constructor; discriminate.
  - destruct (create _) as [|r]; [constructor|].
    destruct (validate r); [constructor|].
    destruct debug_mode; repeat constructor; discriminate.
Qed.

(** X13: the handler asks the API once: what it does depends on [create] only
    through the reply to the request assembled from the transcript. *)
Theorem handle_prompt_one_request (create' : list Message -> exn + response)
        (prompt : str) (s : session) :
  create (buildRequest documents prompt (messages s))
  = create' (buildRequest documents prompt (messages s)) ->
  handle_prompt prompt s = Chat.handle_prompt debug_mode create' documents prompt s.
Proof.
  intros H. rewrite handle_prompt_exact.
  rewrite (@SessionFacts.handle_prompt_run debug_mode create' documents),
    SessionFacts.before_try_run, SessionFacts.try_body_run, removelast_last.
  unfold exchange_turns, exchange_page, exchange_outcome, failure_dump.
  rewrite H. set (request := buildRequest documents prompt (messages s)).
  destruct (create' request) as [e|r].
  - rewrite SessionFacts.except_handler_run, app_nil_r.
    simpl. rewrite <- !app_assoc. reflexivity.
  - destruct (validate r) as [e|blocks].
    + rewrite SessionFacts.except_handler_run, app_nil_r.
      simpl. rewrite <- !app_assoc. reflexivity.
    + rewrite SessionFacts.render_run.
      destruct (normalize blocks) as [e|[full cites]].
      * rewrite SessionFacts.except_handler_run, app_nil_r.
        simpl. rewrite <- !app_assoc. reflexivity.
      * simpl. rewrite <- !app_assoc. reflexivity.
Qed.

End WithClient.

Lemma references_ui_kept (cites : list Citation) :
  filter (fun e => negb (transient_event e)) (references_ui cites) = references_ui cites.
Proof.
  unfold references_ui. destruct cites as [|c cs]; [reflexivity|].
  generalize (combine (seq 1 (length (c :: cs))) (c :: cs)). intros l. simpl.
  do 2 f_equal. induction l as [|[idx cite] l IH]; simpl; congruence.
Qed.

Lemma references_ui_not_debug (cites : list Citation) :
  filter (fun e => negb (debug_event e)) (references_ui cites) = references_ui cites.
Proof.
  unfold references_ui. destruct cites as [|c cs]; [reflexivity|].
  generalize (combine (seq 1 (length (c :: cs))) (c :: cs)). intros l. simpl.
  do 2 f_equal. induction l as [|[idx cite] l IH]; simpl; congruence.
Qed.

(** X14: the debug mode only adds output: the transcript is the same with and
    without it, and the page without it is the page with it minus the debug
    output. *)
Theorem debug_mode_only_adds_output (create : list Message -> exn + response)
        (documents : list DocumentUnit) (prompt : str) (s : session) :
  let on := snd (Chat.handle_prompt true create documents prompt s) in
  let off := snd (Chat.handle_prompt false create documents prompt s) in
  messages on = messages off
  /\ exists shown_on shown_off,
      ui on = ui s ++ shown_on
      /\ ui off = ui s ++ shown_off
      /\ filter (fun e => negb (debug_event e)) shown_on = shown_off.
Proof.
  intros on off. subst on off. rewrite !handle_prompt_exact. simpl.
  split; [reflexivity|]. do 2 eexists. split; [reflexivity|]. split; [reflexivity|].
  unfold exchange_page, assemble_ui, failure_dump, exchange_outcome, render_ui.
  set (request := buildRequest documents prompt (messages s)).
  destruct (create request) as [e|r]; [reflexivity|].
  destruct (validate r) as [e|blocks]; [reflexivity|].
  destruct (normalize blocks) as [e|[full cites]]; [reflexivity|].
  simpl. now rewrite references_ui_not_debug.
Qed.

End SessionMore.

(** ** The replay of the transcript and the runs of [main] *)

(** The transcript a run works on: the stored one, or the greeting. *)
Definition transcript_of (state : option (list Turn)) : list Turn :=
  match state with
  | None => [greeting]
  | Some ms => ms
  end.

(** The prompt a run handles, if any: [chat_input] gave a non-empty text. *)
Definition prompt_of (i : inputs) : option str :=
  match chat_input i with
  | Some (c :: prompt) => Some (c :: prompt)
  | _ => None
  end.

(** A completed exchange: the prompt, the response text, the citations. *)
Definition exchange_of (x : str * str * list Citation) : list Turn :=
  let '(prompt, full_response, cites) := x in
  [user_turn prompt; assistant_turn full_response cites].

(** A transcript made of the greeting followed by completed exchanges, each
    started by a non-empty prompt. *)
Definition well_formed (ms : list Turn) : Prop :=
  exists exchanges,
    ms = greeting :: flat_map exchange_of exchanges
    /\ Forall (fun x => fst (fst x) <> []) exchanges.

Definition is_body (e : page_event) : bool :=
  match e with Body _ => true | _ => false end.

Module PageFacts.

Lemma for_each_adds {A} (body : A -> M unit) (g : A -> list ui_event) (l : list A) :
  (forall a ms u, body a {| messages := ms; ui := u |}
                  = (inr tt, {| messages := ms; ui := u ++ g a |})) ->
  forall ms u,
    for_each l body {| messages := ms; ui := u |}
    = (inr tt, {| messages := ms; ui := u ++ flat_map g l |}).
Proof.
  intros Hbody. induction l as [|a l IH]; intros ms u; simpl.
  - now rewrite app_nil_r.
  - unfold bind. rewrite Hbody, IH, <- app_assoc. reflexivity.
Qed.

Lemma display_message_run (t : Turn) (ms : list Turn) (u : list ui_event) :
  Page.display_message t {| messages := ms; ui := u |}
  = (inr tt, {| messages := ms; ui := u ++ turn_ui t |}).
Proof.
  unfold Page.display_message, turn_ui, bind, emit. simpl.
  rewrite SessionFacts.show_references_run, <- !app_assoc. reflexivity.
Qed.

Lemma display_history_run (ms : list Turn) (u : list ui_event) :
  Page.display_history {| messages := ms; ui := u |}
  = (inr tt, {| messages := ms; ui := u ++ flat_map turn_ui ms |}).
Proof.
  unfold Page.display_history, bind, get_messages. simpl.
  apply for_each_adds. apply display_message_run.
Qed.

(** X15: after a successful exchange, the next run replays the old transcript
    and then exactly what was shown live, less the spinner and the debug
    output: the two stored turns are enough to redraw the exchange. *)
Theorem replay_matches_live (debug_mode : bool)
        (create : list Message -> exn + response) (documents : list DocumentUnit)
        (prompt : str) (s : session) (r : response) (full_response : str)
        (cites : list Citation) :
  exchange_outcome create (buildRequest documents prompt (messages s))
  = inr (r, (full_response, cites)) ->
  let s' := snd (Chat.handle_prompt debug_mode create documents prompt s) in
  let replay ms := ui (snd (Page.display_history {| messages := ms; ui := [] |})) in
  exists live,
    ui s' = ui s ++ live
    /\ replay (messages s')
       = replay (messages s) ++ filter (fun e => negb (transient_event e)) live.
Proof.
  intros H s' replay. subst s' replay. cbv beta.
  rewrite SessionMore.handle_prompt_exact. simpl.
  eexists. split; [reflexivity|].
  rewrite !display_history_run. simpl.
  unfold exchange_turns, exchange_page. rewrite H.
  rewrite flat_map_app. f_equal. simpl.
  unfold assemble_ui, render_ui, turn_ui. simpl.
  rewrite app_nil_r.
  destruct debug_mode; simpl; now rewrite SessionMore.references_ui_kept.
Qed.

Section WithLibraries.

Variable page : Type.
Variable open_rb : str -> option (list Byte.byte).
Variable PdfReader : list Byte.byte -> option (list page * nat).
Variable add_page : page -> option exn.
Variable write_b64 : list page -> exn + str.
Variable md5_hexdigest : list Byte.byte -> str.
Variable Anthropic : str -> exn + (list Message -> exn + response).

Local Abbreviation run_main :=
  (Page.run_main open_rb PdfReader add_page write_b64 md5_hexdigest Anthropic).
Local Abbreviation run_session :=
  (Page.run_session open_rb PdfReader add_page write_b64 md5_hexdigest Anthropic).
Local Abbreviation process_pdf :=
  (Chunker.process_pdf open_rb PdfReader add_page write_b64 md5_hexdigest).

(** With the client built, the handler of the script is the handler
    studied above; when building it raises, the exception leaves the
    handler with the prompt stored and shown. *)
Lemma prompt_handler_run (debug_mode : bool) (documents : list DocumentUnit)
      (api_key prompt : str) (s : session) :
  Page.prompt_handler Anthropic debug_mode documents api_key prompt s
  = match Anthropic api_key with
    | inl e =>
        (inl e, {| messages := messages s ++ [user_turn prompt];
                   ui := ui s ++ [UiChatMessage user; UiMarkdown prompt] |})
    | inr create => Chat.handle_prompt debug_mode create documents prompt s
    end.
Proof.
  unfold Page.prompt_handler, Chat.handle_prompt, bind, lift, raise, ret,
    append_message, emit, user_turn. simpl.
  destruct (Anthropic api_key) as [e|create]; [|reflexivity].
  now rewrite <- app_assoc.
Qed.

(** The chat area as a function of the transcript and the reply. *)
Lemma chat_area_exact (i : inputs) (documents : list DocumentUnit)
      (state : option (list Turn)) :
  Page.chat_area Anthropic i documents state
  = let ms := transcript_of state in
    match prompt_of i with
    | Some prompt =>
        match Anthropic (api_key_of i) with
        | inl e =>
            (Some e, Some (ms ++ [user_turn prompt]),
             map Body (flat_map turn_ui ms ++ [UiChatMessage user; UiMarkdown prompt]))
        | inr create =>
            (None,
             Some (ms ++ exchange_turns create documents prompt ms),
             map Body (flat_map turn_ui ms
                         ++ exchange_page (debug_checkbox i) create
                              documents prompt ms))
        end
    | None => (None, Some ms, map Body (flat_map turn_ui ms))
    end.
Proof.
  unfold Page.chat_area, prompt_of. fold (transcript_of state).
  rewrite display_history_run. simpl.
  destruct (chat_input i) as [[|c prompt]|]; try reflexivity.
  rewrite prompt_handler_run.
  destruct (Anthropic (api_key_of i)) as [e|create]; [reflexivity|].
  rewrite SessionMore.handle_prompt_exact. reflexivity.
Qed.

Lemma run_main_cases (require_key : bool) (pdf_path : str) (i : inputs)
      (state : option (list Turn)) :
  let result := run_main require_key pdf_path i state in
  (fst (fst result) = None
   /\ (snd (fst result) = state
       \/ snd (fst result) = Some (transcript_of state)
       \/ exists prompt full_response cites,
           chat_input i = Some prompt /\ prompt <> []
           /\ snd (fst result)
              = Some (transcript_of state
                        ++ [user_turn prompt; assistant_turn full_response cites])))
  \/ (exists e prompt,
         Anthropic (api_key_of i) = inl e
         /\ chat_input i = Some prompt /\ prompt <> []
         /\ fst (fst result) = Some e
         /\ snd (fst result) = Some (transcript_of state ++ [user_turn prompt])).
Proof.
  intros result. subst result. unfold Page.run_main.
  destruct (require_key && negb (truthy (api_key_of i))); [simpl; auto|].
  destruct (negb (path_exists i pdf_path)); [simpl; auto|].
  destruct (process_pdf pdf_path) as [e|[documents content_hash]]; [simpl; auto|].
  rewrite chat_area_exact. cbv zeta. unfold prompt_of.
  destruct (chat_input i) as [[|c prompt]|]; simpl; auto.
  destruct (Anthropic (api_key_of i)) as [e|create]; simpl.
  - right. exists e, (c :: prompt). repeat split. discriminate.
  - left. unfold exchange_turns.
    destruct (exchange_outcome _ _) as [e|[r [f cs]]]; simpl.
    + rewrite app_nil_r. auto.
    + split; [reflexivity|]. right. right. exists (c :: prompt), f, cs.
      repeat split. discriminate.
Qed.

(** X16: a run of either script only ever adds to the transcript: it leaves
    the stored state as it is, or stores the transcript it worked on (the
    stored one, or the greeting on the first run) followed by nothing or by
    the two turns of one exchange.  It ends on an exception only when
    building the client raises; the client is built outside the [try]
    block, so the user's turn then stays in the transcript. *)
Theorem run_main_appends (require_key : bool) (pdf_path : str) (i : inputs)
        (state : option (list Turn)) :
  let result := run_main require_key pdf_path i state in
  (fst (fst result) = None
   /\ (snd (fst result) = state
       \/ snd (fst result) = Some (transcript_of state)
       \/ exists prompt full_response cites,
           chat_input i = Some prompt /\ prompt <> []
           /\ snd (fst result)
              = Some (transcript_of state
                        ++ [user_turn prompt; assistant_turn full_response cites])))
  \/ (exists e prompt,
         Anthropic (api_key_of i) = inl e
         /\ chat_input i = Some prompt /\ prompt <> []
         /\ fst (fst result) = Some e
         /\ snd (fst result) = Some (transcript_of state ++ [user_turn prompt])).
Proof. apply run_main_cases. Qed.

(** X17: a run that stops on a configuration error (no key, for the script that
    asks for one; no file at the path; a file that cannot be processed)
    leaves the stored state untouched and shows the header followed by
    error output only, nothing of the chat. *)
Theorem run_main_stops_early (require_key : bool) (pdf_path : str) (i : inputs)
        (state : option (list Turn)) :
  (require_key = true /\ api_key_of i = [])
  \/ path_exists i pdf_path = false
  \/ returns (process_pdf pdf_path) = false ->
  let result := run_main require_key pdf_path i state in
  snd (fst result) = state
  /\ exists errors,
      snd result = page_header i ++ errors
      /\ errors <> []
      /\ existsb is_body errors = false.
Proof.
  intros H result. subst result. unfold Page.run_main.
  destruct (require_key && negb (truthy (api_key_of i))) eqn:Hkey.
  { simpl. split; [reflexivity|]. eexists. split; [reflexivity|].
    repeat split. discriminate. }
  destruct (path_exists i pdf_path) eqn:Hpath; simpl.
  2:{ split; [reflexivity|]. eexists. split; [reflexivity|].
      repeat split. discriminate. }
  destruct (process_pdf pdf_path) as [e|[documents content_hash]] eqn:Hpdf.
  { simpl. split; [reflexivity|]. eexists. split; [reflexivity|].
    destruct (debug_checkbox i); repeat split; discriminate. }
  exfalso. destruct H as [[Hrk Hk]|[Hp|Hr]].
  - subst require_key. rewrite Hk in Hkey. discriminate.
  - discriminate.
  - discriminate.
Qed.

Lemma well_formed_greeting : well_formed [greeting].
Proof. exists []. split; [reflexivity | constructor]. Qed.

Lemma well_formed_exchange (ms : list Turn) (prompt full_response : str)
      (cites : list Citation) :
  well_formed ms -> prompt <> [] ->
  well_formed (ms ++ [user_turn prompt; assistant_turn full_response cites]).
Proof.
  intros (exchanges & -> & Hne) Hp.
  exists (exchanges ++ [(prompt, full_response, cites)]). split.
  - rewrite flat_map_app. reflexivity.
  - apply Forall_app. split; [exact Hne | repeat constructor; exact Hp].
Qed.

Lemma run_main_well_formed (require_key : bool) (pdf_path : str) (i : inputs)
      (state : option (list Turn)) :
  returns (Anthropic (api_key_of i)) = true ->
  (forall ms, state = Some ms -> well_formed ms) ->
  forall ms', snd (fst (run_main require_key pdf_path i state)) = Some ms' ->
              well_formed ms'.
Proof.
  intros Hclient Hstate ms' H.
  assert (Hinit : well_formed (transcript_of state)).
  { destruct state as [ms|]; simpl; [now apply Hstate | apply well_formed_greeting]. }
  destruct (run_main_cases require_key pdf_path i state)
    as [(_ & [E|[E|(p & f & c & _ & Hp & E)]])|(e & p & Hraise & _)].
  - rewrite E in H. now apply Hstate.
  - rewrite E in H. inversion H; subst. exact Hinit.
  - rewrite E in H. inversion H; subst. now apply well_formed_exchange.
  - rewrite Hraise in Hclient. discriminate.
Qed.

(** X18: as long as building the client does not raise, whatever the runs
    of a session do, the stored transcript is either not created yet or the
    greeting followed by completed exchanges: a user turn is never left
    without its assistant turn, and every prompt kept is non-empty. *)
Theorem run_session_well_formed (require_key : bool) (pdf_path : str)
        (runs : list inputs) :
  Forall (fun i => returns (Anthropic (api_key_of i)) = true) runs ->
  match run_session require_key pdf_path runs None with
  | None => True
  | Some ms => well_formed ms
  end.
Proof.
  intros Hruns.
  assert (H : forall state,
             (forall ms, state = Some ms -> well_formed ms) ->
             forall ms, run_session require_key pdf_path runs state = Some ms ->
                        well_formed ms).
  { induction Hruns as [|i rest Hi _ IH]; intros state Hstate ms Hrun;
      simpl in Hrun.
    - now apply Hstate.
    - apply (IH _ (@run_main_well_formed require_key pdf_path i state Hi Hstate)
                _ Hrun). }
  destruct (run_session require_key pdf_path runs None) as [ms|] eqn:E; [|exact I].
  apply (H None); [discriminate | exact E].
Qed.

(** X19: the client is built after the prompt is stored and outside the
    [try] block: when building it raises, the run ends on that exception
    and the user's turn stays in the transcript, with no assistant turn. *)
Theorem client_failure_keeps_user_turn (require_key : bool) (pdf_path : str)
        (i : inputs) (state : option (list Turn)) (prompt : str) (e : exn) :
  (require_key = false \/ api_key_of i <> []) ->
  path_exists i pdf_path = true ->
  returns (process_pdf pdf_path) = true ->
  chat_input i = Some prompt ->
  prompt <> [] ->
  Anthropic (api_key_of i) = inl e ->
  fst (fst (run_main require_key pdf_path i state)) = Some e
  /\ snd (fst (run_main require_key pdf_path i state))
     = Some (transcript_of state ++ [user_turn prompt]).
Proof.
  intros Hkey Hpath Hpdf Hin Hp Hraise. unfold Page.run_main.
  assert (Hgate : require_key && negb (truthy (api_key_of i)) = false).
  { destruct Hkey as [->|Hk]; [reflexivity|].
    destruct (api_key_of i); [congruence|]. apply andb_false_r. }
  rewrite Hgate, Hpath. simpl.
  destruct (process_pdf pdf_path) as [e0|[documents content_hash]]; [discriminate|].
  rewrite chat_area_exact. cbv zeta. unfold prompt_of. rewrite Hin.
  destruct prompt as [|c prompt]; [congruence|].
  rewrite Hraise. split; reflexivity.
Qed.

End WithLibraries.
End PageFacts.

(** ** Further concrete inputs *)

Module Sample.

Definition missing : str := lit "documents/missing.pdf".

(** A writer that refuses the seventh page. *)
Definition refuse_seven (p : nat) : option exn :=
  if p =? 7 then Some AssertionError else None.

(** An annotation as the client library builds it when the reply names no
    title: the attribute is there and holds [None]. *)
Definition untitled_cite : annotation :=
  {| document_title := Some PyNone;
     start_page_number := Some (PyInt 3);
     end_page_number := Some (PyInt 4);
     cited_text := Some (PyStr (lit "abc")) |}.
Definition untitled_blocks : list content_block :=
  [{| block_type := Some (lit "text");
      block_text := Some (PyStr (lit "It is on page 3."));
      block_citations := Some [untitled_cite] |}].

(** A reply with a tool-use block before the text block. *)
Definition tool_block : content_block :=
  {| block_type := Some (lit "tool_use");
     block_text := None;
     block_citations := None |}.
Definition mixed_blocks : list content_block := tool_block :: Demo.reply_blocks.

Definition cited : Citation :=
  {| document := PyStr (lit "Unknown Document");
     start_page := PyInt 3;
     end_page := PyInt 0;
     text := lit "abc..." |}.

(** A client that answers requests of two messages and fails on others. *)
Definition picky (request : list Message) : exn + response :=
  if length request =? 2 then Demo.answering request else Demo.failing request.

(** A run with no key in the environment and none typed in. *)
Definition no_key : inputs :=
  {| env_api_key := None;
     debug_checkbox := false;
     key_input := [];
     path_exists := fun _ => true;
     chat_input := Some Demo.question |}.

(** Runs with a key in the environment: one that sends the question, one
    that sends nothing. *)
Definition asking : inputs :=
  {| env_api_key := Some (lit "sk-test");
     debug_checkbox := false;
     key_input := [];
     path_exists := fun _ => true;
     chat_input := Some Demo.question |}.
Definition idle : inputs :=
  {| env_api_key := Some (lit "sk-test");
     debug_checkbox := false;
     key_input := [];
     path_exists := fun _ => true;
     chat_input := None |}.

(** A client class that accepts every key, and one that rejects every key. *)
Definition accepting (_ : str) : exn + (list Message -> exn + response) :=
  inr Demo.answering.
Definition rejecting (_ : str) : exn + (list Message -> exn + response) :=
  inl (ValueError (lit "bad key")).

End Sample.

Module MoreInstances.

(** C6, as first stated, fails where the title is missing because the
    attribute holds [None]: the stored title is then [None], not
    "Unknown Document". *)
Lemma title_holding_none_is_not_defaulted :
  ~ (forall blocks full out,
        normalize blocks = inr (full, out) ->
        Forall2 (fun a c =>
                   field_missing (document_title a) = true ->
                   document c = PyStr (lit "Unknown Document"))
                (annotations_of blocks) out).
Proof.
  intros H.
  specialize (H Sample.untitled_blocks (lit "It is on page 3.")
                [{| document := PyNone; start_page := PyInt 3;
                    end_page := PyInt 4; text := lit "abc..." |}] eq_refl).
  inversion H as [|a c l l' Hac _]; subst.
  specialize (Hac eq_refl). discriminate Hac.
Qed.

(** C7, as first stated, fails: when the empty reply makes the check raise,
    the transcript and the page have already changed (the user's turn is
    stored and shown), and after the exchange the page shows the error. *)
Lemma empty_response_after_mutations :
  fst (Chat.try_body false Demo.silent [] Demo.question
         (Chat.before_try Demo.question Demo.fresh))
  = inl (ValueError empty_response_msg)
  /\ messages (snd (Chat.try_body false Demo.silent [] Demo.question
                      (Chat.before_try Demo.question Demo.fresh)))
     = [Demo.greeting; user_turn Demo.question]
  /\ snd (Chat.try_body false Demo.silent [] Demo.question
            (Chat.before_try Demo.question Demo.fresh))
     <> Demo.fresh
  /\ ui (snd (Chat.handle_prompt false Demo.silent [] Demo.question Demo.fresh))
     = [UiChatMessage user; UiMarkdown Demo.question;
        UiChatMessage assistant; UiSpinner (lit "Analyzing document...");
        UiError (ValueError empty_response_msg)]
  /\ snd (Chat.handle_prompt false Demo.silent [] Demo.question Demo.fresh)
     <> Demo.fresh.
Proof.
  split; [reflexivity|]. split; [reflexivity|]. split; [discriminate|].
  split; [reflexivity | discriminate].
Qed.

Lemma process_pdf_failures_refused_page :
  Chunker.process_pdf Demo.open_rb Demo.PdfReader Sample.refuse_seven
                      Demo.write_b64 Demo.digest Demo.path
  = inl AssertionError
  /\ ((Demo.open_rb Demo.path = None /\ AssertionError = OSError)
      \/ (exists bytes, Demo.open_rb Demo.path = Some bytes
                        /\ Demo.PdfReader bytes = None
                        /\ AssertionError = PdfReadError)
      \/ (exists bytes pages pos,
             Demo.open_rb Demo.path = Some bytes
             /\ Demo.PdfReader bytes = Some (pages, pos)
             /\ ((exists p, In p pages /\ Sample.refuse_seven p = Some AssertionError)
                 \/ (exists w, In w (page_windows max_pages (length pages))
                               /\ Demo.write_b64 (slice pages w)
                                  = inl AssertionError)))).
Proof.
  split; [reflexivity|].
  apply (@ChunkerMore.process_pdf_failures
           nat Demo.open_rb Demo.PdfReader Sample.refuse_seven Demo.write_b64
           Demo.digest Demo.path AssertionError). reflexivity.
Defined.

Lemma process_pdf_nth_unit_last_of_250 :
  (Demo.open_rb Demo.path = Some Demo.pdf_bytes
   /\ Demo.PdfReader Demo.pdf_bytes = Some (Demo.pages, 5)
   /\ Demo.process_pdf Demo.path = inr (Demo.units, Demo.fingerprint)
   /\ 2 < (length Demo.pages + 99) / 100)
  /\ exists d,
      nth_error Demo.units 2 = Some d
      /\ title d = basename Demo.path ++ lit " (pages " ++ of_nat (100 * 2 + 1)
                     ++ lit "-" ++ of_nat (Nat.min (100 * 2 + 100) (length Demo.pages))
                     ++ lit ")"
      /\ Demo.write_b64
           (firstn (Nat.min (100 * 2 + 100) (length Demo.pages) - 100 * 2)
                   (skipn (100 * 2) Demo.pages))
         = inr (data (source d))
      /\ length (firstn (Nat.min (100 * 2 + 100) (length Demo.pages) - 100 * 2)
                        (skipn (100 * 2) Demo.pages))
         = (if 3 <? (length Demo.pages + 99) / 100
            then 100 else length Demo.pages - 100 * 2)
      /\ 1 <= length (firstn (Nat.min (100 * 2 + 100) (length Demo.pages) - 100 * 2)
                             (skipn (100 * 2) Demo.pages)) <= 100.
Proof.
  split.
  - split; [reflexivity|]. split; [reflexivity|]. split; [reflexivity|].
    vm_compute. lia.
  - apply (@ChunkerMore.process_pdf_nth_unit
             nat Demo.open_rb Demo.PdfReader Demo.add_page Demo.write_b64 Demo.digest
             Demo.path Demo.pdf_bytes Demo.pages 5 2 Demo.units Demo.fingerprint);
      [reflexivity | reflexivity | reflexivity | vm_compute; lia].
Defined.

Lemma process_pdf_titles_distinct_demo :
  Demo.process_pdf Demo.path = inr (Demo.units, Demo.fingerprint)
  /\ NoDup (map title Demo.units).
Proof.
  split; [reflexivity|].
  apply (@ChunkerMore.process_pdf_titles_distinct
           nat Demo.open_rb Demo.PdfReader Demo.add_page Demo.write_b64 Demo.digest
           Demo.path Demo.units Demo.fingerprint). reflexivity.
Defined.

Lemma normalize_full_response_demo :
  normalize Demo.reply_blocks = inr (lit "It is on page 3.", [Sample.cited])
  /\ lit "It is on page 3." = texts_of Demo.reply_blocks.
Proof.
  split; [reflexivity|].
  apply (@NormalizeMore.normalize_full_response
           Demo.reply_blocks (lit "It is on page 3.") [Sample.cited]). reflexivity.
Defined.

Lemma normalize_skips_other_blocks_demo :
  forallb has_type Sample.mixed_blocks = true
  /\ normalize (filter is_text_block Sample.mixed_blocks)
     = normalize Sample.mixed_blocks.
Proof.
  split; [reflexivity|].
  apply (@NormalizeMore.normalize_skips_other_blocks Sample.mixed_blocks).
  reflexivity.
Defined.

Lemma normalize_excerpt_bounded_demo :
  normalize Demo.reply_blocks = inr (lit "It is on page 3.", [Sample.cited])
  /\ Forall (fun c => exists kept, text c = kept ++ lit "..."
                                  /\ length kept <= 150
                                  /\ length (text c) <= 153) [Sample.cited].
Proof.
  split; [reflexivity|].
  apply (@NormalizeMore.normalize_excerpt_bounded
           Demo.reply_blocks (lit "It is on page 3.") [Sample.cited]). reflexivity.
Defined.

Lemma failure_is_shown_demo :
  exchange_outcome Demo.failing (buildRequest [] Demo.question (messages Demo.fresh))
  = inl (APIError (lit "overloaded"))
  /\ exists shown,
      ui (snd (Chat.handle_prompt true Demo.failing [] Demo.question Demo.fresh))
      = ui Demo.fresh ++ shown ++ [UiError (APIError (lit "overloaded"))]
          ++ [UiCode (APIError (lit "overloaded"))]
      /\ Forall (fun x => forall e', x <> UiError e') shown.
Proof.
  split; [reflexivity|].
  apply (@SessionMore.failure_is_shown
           true Demo.failing [] Demo.question Demo.fresh
           (APIError (lit "overloaded"))). reflexivity.
Defined.

Lemma handle_prompt_one_request_demo :
  Demo.answering (buildRequest [] Demo.question (messages Demo.fresh))
  = Sample.picky (buildRequest [] Demo.question (messages Demo.fresh))
  /\ Chat.handle_prompt false Demo.answering [] Demo.question Demo.fresh
     = Chat.handle_prompt false Sample.picky [] Demo.question Demo.fresh.
Proof.
  split; [reflexivity|].
  apply (@SessionMore.handle_prompt_one_request
           false Demo.answering [] Sample.picky Demo.question Demo.fresh).
  reflexivity.
Defined.

Lemma replay_matches_live_demo :
  exchange_outcome Demo.answering
                   (buildRequest [] Demo.question (messages Demo.fresh))
  = inr (ResponseObj (Some Demo.reply_blocks),
         (lit "It is on page 3.", [Sample.cited]))
  /\ exists live,
      ui (snd (Chat.handle_prompt true Demo.answering [] Demo.question Demo.fresh))
      = ui Demo.fresh ++ live
      /\ ui (snd (Page.display_history
                    {| messages :=
                         messages (snd (Chat.handle_prompt true Demo.answering []
                                          Demo.question Demo.fresh));
                       ui := [] |}))
         = ui (snd (Page.display_history
                      {| messages := messages Demo.fresh; ui := [] |}))
             ++ filter (fun e => negb (transient_event e)) live.
Proof.
  split; [reflexivity|].
  apply (@PageFacts.replay_matches_live
           true Demo.answering [] Demo.question Demo.fresh
           (ResponseObj (Some Demo.reply_blocks)) (lit "It is on page 3.")
           [Sample.cited]). reflexivity.
Defined.

Lemma run_main_stops_early_without_key :
  ((true = true /\ api_key_of Sample.no_key = [])
   \/ path_exists Sample.no_key Demo.path = false
   \/ returns (Demo.process_pdf Demo.path) = false)
  /\ snd (fst (Page.run_main Demo.open_rb Demo.PdfReader Demo.add_page Demo.write_b64 Demo.digest
                 (fun _ => inr Demo.answering) true Demo.path Sample.no_key
                 (Some [greeting])))
     = Some [greeting]
  /\ exists errors,
      snd (Page.run_main Demo.open_rb Demo.PdfReader Demo.add_page Demo.write_b64 Demo.digest
             (fun _ => inr Demo.answering) true Demo.path Sample.no_key
             (Some [greeting]))
      = page_header Sample.no_key ++ errors
      /\ errors <> []
      /\ existsb is_body errors = false.
Proof.
  split; [left; split; reflexivity|].
  apply (@PageFacts.run_main_stops_early
           nat Demo.open_rb Demo.PdfReader Demo.add_page Demo.write_b64 Demo.digest
           (fun _ => inr Demo.answering) true Demo.path Sample.no_key (Some [greeting])).
  left; split; reflexivity.
Defined.

Lemma run_session_well_formed_demo :
  Forall (fun i => returns (Sample.accepting (api_key_of i)) = true)
         [Sample.idle; Sample.asking; Sample.asking]
  /\ match Page.run_session Demo.open_rb Demo.PdfReader Demo.add_page Demo.write_b64 Demo.digest
                            Sample.accepting true Demo.path
                            [Sample.idle; Sample.asking; Sample.asking] None with
     | None => True
     | Some ms => well_formed ms
     end.
Proof.
  split; [repeat constructor|].
  apply (@PageFacts.run_session_well_formed
           nat Demo.open_rb Demo.PdfReader Demo.add_page Demo.write_b64 Demo.digest
           Sample.accepting true Demo.path
           [Sample.idle; Sample.asking; Sample.asking]).
  repeat constructor.
Defined.

Lemma client_failure_keeps_user_turn_demo :
  ((true = false \/ api_key_of Sample.asking <> [])
   /\ path_exists Sample.asking Demo.path = true
   /\ returns (Demo.process_pdf Demo.path) = true
   /\ chat_input Sample.asking = Some Demo.question
   /\ Demo.question <> []
   /\ Sample.rejecting (api_key_of Sample.asking)
      = inl (ValueError (lit "bad key")))
  /\ fst (fst (Page.run_main Demo.open_rb Demo.PdfReader Demo.add_page Demo.write_b64 Demo.digest
                  Sample.rejecting true Demo.path Sample.asking (Some [greeting])))
     = Some (ValueError (lit "bad key"))
  /\ snd (fst (Page.run_main Demo.open_rb Demo.PdfReader Demo.add_page Demo.write_b64 Demo.digest
                  Sample.rejecting true Demo.path Sample.asking (Some [greeting])))
     = Some (transcript_of (Some [greeting]) ++ [user_turn Demo.question]).
Proof.
  split.
  - split; [right; discriminate|].
    split; [reflexivity|]. split; [reflexivity|]. split; [reflexivity|].
    split; [discriminate | reflexivity].
  - apply (@PageFacts.client_failure_keeps_user_turn
             nat Demo.open_rb Demo.PdfReader Demo.add_page Demo.write_b64 Demo.digest
             Sample.rejecting true Demo.path Sample.asking (Some [greeting])
             Demo.question (ValueError (lit "bad key")));
      [right; discriminate | reflexivity | reflexivity | reflexivity
       | discriminate | reflexivity].
Defined.

End MoreInstances.
